(** * wowmysql-go: query builder, error taxonomy, storage quota guard and
      auth base URL, embedded from the Go sources under [wowmysql/].

    Go values are modelled as the code has them: [int]/[int64] as [Z],
    [float64] as the kernel's binary64 [float], [string] as [string],
    slices as lists, [*int] as [option Z], [map[string]interface{}] as
    [gmap string _], and a Go [(T, error)] result as a sum of the value and the
    error.
    HTTP is an explicit log of the requests handed to [http.Client.Do]
    together with a backend oracle that answers them. *)

From Stdlib Require Import ZArith String Ascii List Floats Lia Bool DecimalString.
From Stdlib.Strings Require Import Byte.
From stdpp Require Import gmap strings list.

Set Warnings "-register-all,-clear-no-such-hyp".

Open Scope string_scope.
Open Scope Z_scope.
Open Scope list_scope.

(** ** encoding/json values *)

Module Json.

(** A JSON document.  Object members are kept in the order the encoder
    emits them (struct fields in declaration order, map keys sorted). *)
Inductive JSON : Type :=
| JNull
| JBool (b : bool)
| JInt (n : Z)
| JFloat (f : float)
| JString (s : string)
| JArray (l : list JSON)
| JObject (members : list (string * JSON)).

(** A value stored in a Go [interface{}].  [GNil] is the nil interface;
    [GNilPtr] is a typed nil pointer, which is a non-nil interface that
    encodes as [null].  Every value of this type encodes, so [json.Marshal]
    has no failure case on them. *)
Inductive GoValue : Type :=
| GNil
| GBool (b : bool)
| GInt (n : Z)
| GString (s : string)
| GNilPtr
| GSlice (l : list GoValue).

(** [json.Marshal] of an interface value. *)
Fixpoint marshalValue (v : GoValue) : JSON :=
  match v with
  | GNil => JNull
  | GBool b => JBool b
  | GInt n => JInt n
  | GString s => JString s
  | GNilPtr => JNull
  | GSlice l => JArray (List.map marshalValue l)
  end.

(** encoding/json's [isEmptyValue] at a field of static type
    [interface{}]: the field is empty exactly when the interface is nil. *)
Definition isEmptyInterface (v : GoValue) : bool :=
  match v with
  | GNil => true
  | _ => false
  end.

(** Keys of an encoded object. *)
Definition keys (j : JSON) : list string :=
  match j with
  | JObject ms => List.map fst ms
  | _ => []
  end.

Definition hasKey (k : string) (j : JSON) : bool :=
  bool_decide (k ∈ keys j).

(** Member lookup in an encoded object. *)
Fixpoint assoc (k : string) (ms : list (string * JSON)) : option JSON :=
  match ms with
  | [] => None
  | (k', v) :: rest => if String.eqb k k' then Some v else assoc k rest
  end.

Definition member (k : string) (j : JSON) : option JSON :=
  match j with
  | JObject ms => assoc k ms
  | _ => None
  end.

(** Insertion of a key/value pair into a list sorted by key, the order in
    which [json.Marshal] writes the entries of a map. *)
Fixpoint insertSorted (kv : string * JSON) (ms : list (string * JSON))
  : list (string * JSON) :=
  match ms with
  | [] => [kv]
  | kv' :: rest =>
      if String.leb (fst kv) (fst kv') then kv :: ms
      else kv' :: insertSorted kv rest
  end.

Definition sortMembers (ms : list (string * JSON)) : list (string * JSON) :=
  List.fold_right insertSorted [] ms.

(** Decoding of a JSON document into a [map[string]interface{}] that starts
    out nil: an object fills the map (a repeated key keeps its last value),
    anything else, or bytes that are not JSON at all ([None]), leaves the
    map nil, which reads like the empty map. *)
Definition unmarshalMap (body : option JSON) : gmap string JSON :=
  match body with
  | Some (JObject ms) => list_to_map (List.rev ms)
  | _ => ∅
  end.

(** The type assertion [m[k].(string)]. *)
Definition stringField (m : gmap string JSON) (k : string) : option string :=
  match m !! k with
  | Some (JString s) => Some s
  | _ => None
  end.

End Json.
Export Json.

(** ** net/http as seen by the clients *)

Module Http.

Inductive Part : Type :=
| FormField (name value : string)
| FormFile (name filename : string) (data : list byte).

Inductive ReqBody : Type :=
| NoBody
| JsonBody (j : JSON)
| MultipartBody (parts : list Part).

Record HttpRequest := mkRequest {
  reqMethod : string;
  reqURL : string;
  reqHeaders : list (string * string);
  reqBody : ReqBody
}.

(** The outcome of [httpClient.Do] followed by [io.ReadAll] of the body.
    A body that was read is given by its reading as a JSON text, [None]
    when the bytes are not JSON. *)
Inductive RoundTrip : Type :=
| DoFails (cause : string)
| ReadFails (status : Z) (cause : string)
| Responds (status : Z) (body : option JSON).

End Http.
Export Http.

(** ** Error types (table.go, second half) *)

Module Errors.

Record WowMySQLError := mkWowMySQLError {
  Message : string;
  StatusCode : Z;
  Response : gmap string JSON
}.

Record StorageError := mkStorageError {
  SMessage : string;
  SStatusCode : Z;
  SResponse : gmap string JSON;
  SErr : option string
}.

Record StorageLimitExceededError := mkStorageLimitExceededError {
  LMessage : string;
  RequiredBytes : Z;
  AvailableBytes : Z;
  LStatusCode : Z;
  LResponse : gmap string JSON
}.

(** The dynamic type of a Go [error] returned by this package.
    [ErrWrapped msg cause] is [fmt.Errorf(msg + ": %w", cause)]. *)
Inductive error : Type :=
| ErrWowMySQL (e : WowMySQLError)
| ErrAuthentication (e : WowMySQLError)
| ErrNotFound (e : WowMySQLError)
| ErrRateLimit (e : WowMySQLError)
| ErrNetwork (cause : string)
| ErrStorage (e : StorageError)
| ErrStorageLimitExceeded (e : StorageLimitExceededError)
| ErrWrapped (msg : string) (cause : string).

Inductive result (A : Type) : Type :=
| Ok (a : A)
| Err (e : error).
Arguments Ok {A} a.
Arguments Err {A} e.

(** [fmt.Sprintf("%d", n)]. *)
Definition itoa (n : Z) : string := NilZero.string_of_int (Z.to_int n).

(** The message selection shared by [parseError] and [parseStorageError]. *)
Definition extractMessage (statusCode : Z) (errorResponse : gmap string JSON)
  : string :=
  let message := "Request failed" in
  let message :=
    match stringField errorResponse "error" with
    | Some msg => msg
    | None =>
        match stringField errorResponse "message" with
        | Some msg => msg
        | None =>
            match stringField errorResponse "detail" with
            | Some msg => msg
            | None => message
            end
        end
    end in
  if String.eqb message "Request failed"
  then "Request failed with status " +:+ itoa statusCode
  else message.

Definition parseError (statusCode : Z) (body : option JSON) : error :=
  let errorResponse := unmarshalMap body in
  let message := extractMessage statusCode errorResponse in
  let e := mkWowMySQLError message statusCode errorResponse in
  if Z.eqb statusCode 401 || Z.eqb statusCode 403 then ErrAuthentication e
  else if Z.eqb statusCode 404 then ErrNotFound e
  else if Z.eqb statusCode 429 then ErrRateLimit e
  else ErrWowMySQL e.

Definition parseStorageError (statusCode : Z) (body : option JSON) : error :=
  let errorResponse := unmarshalMap body in
  let message := extractMessage statusCode errorResponse in
  if Z.eqb statusCode 413
  then ErrStorageLimitExceeded
         (mkStorageLimitExceededError message 0 0 statusCode errorResponse)
  else ErrStorage (mkStorageError message statusCode errorResponse None).

End Errors.
Export Errors.

(** ** client.go *)

Module Cl.

Record Client := mkClient {
  projectURL : string;
  apiKey : string
}.

End Cl.
Export Cl.

(** ** query_builder.go *)

Module QB.

Definition FilterOperator := string.

Definition OpEq : FilterOperator := "eq".
Definition OpNeq : FilterOperator := "neq".
Definition OpGt : FilterOperator := "gt".
Definition OpGte : FilterOperator := "gte".
Definition OpLt : FilterOperator := "lt".
Definition OpLte : FilterOperator := "lte".
Definition OpLike : FilterOperator := "like".
Definition OpIsNull : FilterOperator := "is".

Definition SortDirection := string.

Definition SortAsc : SortDirection := "asc".
Definition SortDesc : SortDirection := "desc".

Record FilterExpression := mkFilter {
  Column : string;
  Operator : FilterOperator;
  Value : GoValue               (* `json:"value,omitempty"` *)
}.

Record QueryBuilder := mkQB {
  client : Client;
  tableName : string;
  columns : list string;
  filters : list FilterExpression;
  orderColumn : string;
  orderDirection : SortDirection;
  limitValue : option Z;
  offsetValue : option Z
}.

(** Mutators update the receiver in place and return it; here they return
    the updated builder. *)

Definition Select (cols : list string) (qb : QueryBuilder) : QueryBuilder :=
  mkQB (client qb) (tableName qb) cols (filters qb) (orderColumn qb) (orderDirection qb)
       (limitValue qb) (offsetValue qb).

Definition appendFilter (f : FilterExpression) (qb : QueryBuilder) : QueryBuilder :=
  mkQB (client qb) (tableName qb) (columns qb) (filters qb ++ [f]) (orderColumn qb)
       (orderDirection qb) (limitValue qb) (offsetValue qb).

Definition Eq (column : string) (value : GoValue) (qb : QueryBuilder) :=
  appendFilter (mkFilter column OpEq value) qb.

Definition Neq (column : string) (value : GoValue) (qb : QueryBuilder) :=
  appendFilter (mkFilter column OpNeq value) qb.

Definition Gt (column : string) (value : GoValue) (qb : QueryBuilder) :=
  appendFilter (mkFilter column OpGt value) qb.

Definition Gte (column : string) (value : GoValue) (qb : QueryBuilder) :=
  appendFilter (mkFilter column OpGte value) qb.

Definition Lt (column : string) (value : GoValue) (qb : QueryBuilder) :=
  appendFilter (mkFilter column OpLt value) qb.

Definition Lte (column : string) (value : GoValue) (qb : QueryBuilder) :=
  appendFilter (mkFilter column OpLte value) qb.

(** [Like] takes a Go [string]; stored in the interface field it is a
    non-nil interface whatever the pattern. *)
Definition Like (column : string) (pattern : string) (qb : QueryBuilder) :=
  appendFilter (mkFilter column OpLike (GString pattern)) qb.

(** [IsNull] leaves [Value] at its zero value, the nil interface. *)
Definition IsNull (column : string) (qb : QueryBuilder) :=
  appendFilter (mkFilter column OpIsNull GNil) qb.

Definition OrderBy (column : string) (direction : SortDirection)
    (qb : QueryBuilder) : QueryBuilder :=
  mkQB (client qb) (tableName qb) (columns qb) (filters qb) column direction
       (limitValue qb) (offsetValue qb).

Definition Limit (limit : Z) (qb : QueryBuilder) : QueryBuilder :=
  mkQB (client qb) (tableName qb) (columns qb) (filters qb) (orderColumn qb)
       (orderDirection qb) (Some limit) (offsetValue qb).

Definition Offset (offset : Z) (qb : QueryBuilder) : QueryBuilder :=
  mkQB (client qb) (tableName qb) (columns qb) (filters qb) (orderColumn qb)
       (orderDirection qb) (limitValue qb) (Some offset).

(** What a request-body map holds under a key. *)
Inductive BodyValue : Type :=
| BStrings (l : list string)
| BFilters (l : list FilterExpression)
| BString (s : string)
| BInt (n : Z).

(** [buildQueryBody]: a fresh map, one guarded store per piece of state. *)
Definition buildQueryBody (qb : QueryBuilder) : gmap string BodyValue :=
  let body : gmap string BodyValue := ∅ in
  let body := if Z.ltb 0 (Z.of_nat (length (columns qb)))
              then <["columns" := BStrings (columns qb)]> body else body in
  let body := if Z.ltb 0 (Z.of_nat (length (filters qb)))
              then <["filters" := BFilters (filters qb)]> body else body in
  let body := if negb (String.eqb (orderColumn qb) "")
              then <["order_direction" := BString (orderDirection qb)]>
                     (<["order_by" := BString (orderColumn qb)]> body)
              else body in
  let body := match limitValue qb with
              | Some n => <["limit" := BInt n]> body
              | None => body
              end in
  let body := match offsetValue qb with
              | Some n => <["offset" := BInt n]> body
              | None => body
              end in
  body.

(** [json.Marshal] of a [FilterExpression]: fields in declaration order,
    [value] dropped when empty. *)
Definition marshalFilter (f : FilterExpression) : JSON :=
  JObject ([("column", JString (Column f)); ("operator", JString (Operator f))]
           ++ (if isEmptyInterface (Value f) then []
               else [("value", marshalValue (Value f))])).

Definition marshalBodyValue (v : BodyValue) : JSON :=
  match v with
  | BStrings l => JArray (List.map JString l)
  | BFilters l => JArray (List.map marshalFilter l)
  | BString s => JString s
  | BInt n => JInt n
  end.

(** [json.Marshal] of the body map: entries written in key order. *)
Definition marshalBody (body : gmap string BodyValue) : JSON :=
  JObject (sortMembers
             (List.map (fun kv => (fst kv, marshalBodyValue (snd kv)))
                       (map_to_list body))).

(** One call of a filter mutator, as data, so that chains can be
    quantified over. *)
Inductive FilterCall : Type :=
| CallEq (column : string) (value : GoValue)
| CallNeq (column : string) (value : GoValue)
| CallGt (column : string) (value : GoValue)
| CallGte (column : string) (value : GoValue)
| CallLt (column : string) (value : GoValue)
| CallLte (column : string) (value : GoValue)
| CallLike (column : string) (pattern : string)
| CallIsNull (column : string).

Definition call (c : FilterCall) (qb : QueryBuilder) : QueryBuilder :=
  match c with
  | CallEq col v => Eq col v qb
  | CallNeq col v => Neq col v qb
  | CallGt col v => Gt col v qb
  | CallGte col v => Gte col v qb
  | CallLt col v => Lt col v qb
  | CallLte col v => Lte col v qb
  | CallLike col p => Like col p qb
  | CallIsNull col => IsNull col qb
  end.


End QB.
Export QB.

(** ** models.go *)

Module Models.

(** A decoded row: a [map[string]interface{}], [None] when the map is nil
    (a [null] element of the [data] array). *)
Definition Row := option (gmap string JSON).

Record QueryResponse := mkQueryResponse {
  Data : list Row;
  Count : Z;
  Total : option Z;
  Error : option string
}.

Record FileUploadResult := mkFileUploadResult {
  Key : string;
  Size : Z;
  URL : string;
  Success : bool
}.

Record StorageQuota := mkStorageQuota {
  StorageQuotaGB : float;
  StorageUsedGB : float;
  StorageExpansionGB : float;
  StorageAvailableGB : float;
  UsagePercentage : float;
  CanExpandStorage : bool;
  IsEnterprise : bool;
  PlanName : string;
  StorageQuotaBytes : Z;        (* `json:"-"` *)
  StorageUsedBytes : Z;         (* `json:"-"` *)
  StorageAvailableBytes : Z     (* `json:"-"` *)
}.

(** The zero value of [var quota StorageQuota]. *)
Definition zeroStorageQuota : StorageQuota :=
  mkStorageQuota 0%float 0%float 0%float 0%float 0%float false false "" 0 0 0.

End Models.
Export Models.

(** ** What the Go runtime and the remote backend contribute *)

Module Rt.

(** [urlError u] tells whether [http.NewRequest] rejects the URL [u].
    [backend log req] answers request [req] after the requests in [log].
    The [decode*] fields are [json.Unmarshal] into the typed structs, from a
    body already read as JSON; [decodeQuotaFields] is the decoding into the
    tagged fields of a [StorageQuota] receiver ([json.Unmarshal(data, &aux)]
    inside [UnmarshalJSON]).  [sprintf2f] is [fmt.Sprintf("%.2f", _)],
    [boundary] the multipart boundary drawn by [multipart.NewWriter], and
    [int64Overflow f] what the platform leaves in an [int64] when [f] has no
    [int64] value (the Go specification makes that result
    implementation-dependent). *)
Record Runtime := mkRuntime {
  urlError : string -> bool;
  backend : list HttpRequest -> HttpRequest -> RoundTrip;
  decodeQueryResponse : JSON -> option QueryResponse;
  decodeQuotaFields : JSON -> StorageQuota -> option StorageQuota;
  decodeFileUploadResult : JSON -> option FileUploadResult;
  sprintf2f : float -> string;
  boundary : string;
  int64Overflow : float -> Z
}.

(** [resp.StatusCode < 200 || resp.StatusCode >= 300]. *)
Definition failedStatus (status : Z) : bool :=
  Z.ltb status 200 || Z.leb 300 status.

End Rt.
Export Rt.

(** ** client.go: the data API transport *)

Module Transport.

Section WithRuntime.
Context (rt : Runtime).

(** [Client.doRequest].  The state threaded through is the log of requests
    given to [httpClient.Do]. *)
Definition doRequest (c : Client) (method path : string)
    (body : option (gmap string BodyValue)) (log : list HttpRequest)
  : list HttpRequest * result (option JSON) :=
  let bodyReader := match body with
                    | Some m => JsonBody (marshalBody m)
                    | None => NoBody
                    end in
  let url := projectURL c +:+ path in
  if urlError rt url then (log, Err (ErrWrapped "failed to create request" url))
  else
    let req := mkRequest method url
                 [("Content-Type", "application/json");
                  ("Accept", "application/json");
                  ("Authorization", "Bearer " +:+ apiKey c)]
                 bodyReader in
    match backend rt log req with
    | DoFails cause => (log ++ [req], Err (ErrNetwork cause))
    | ReadFails _ cause =>
        (log ++ [req], Err (ErrWrapped "failed to read response body" cause))
    | Responds status respBody =>
        if failedStatus status
        then (log ++ [req], Err (parseError status respBody))
        else (log ++ [req], Ok respBody)
    end.

(** [QueryBuilder.Execute]. *)
Definition Execute (qb : QueryBuilder) (log : list HttpRequest)
  : list HttpRequest * result QueryResponse :=
  let body := buildQueryBody qb in
  let '(log1, r) :=
    doRequest (client qb) "POST"
      ("/api/v1/tables/" +:+ tableName qb +:+ "/query") (Some body) log in
  match r with
  | Err e => (log1, Err e)
  | Ok resp =>
      match resp ≫= decodeQueryResponse rt with
      | None => (log1, Err (ErrWrapped "failed to parse response" ""))
      | Some result => (log1, Ok result)
      end
  end.

(** [QueryBuilder.Get]. *)
Definition Get (qb : QueryBuilder) (log : list HttpRequest) := Execute qb log.

(** [QueryBuilder.First]: the builder after the call, the log, and the
    returned pair: [Ok None] is [(nil, nil)]. *)
Definition First (qb : QueryBuilder) (log : list HttpRequest)
  : QueryBuilder * list HttpRequest * result Row :=
  let qb := Limit 1 qb in
  let '(log1, r) := Execute qb log in
  match r with
  | Err e => (qb, log1, Err e)
  | Ok result =>
      match Data result with
      | [] => (qb, log1, Ok None)
      | row :: _ => (qb, log1, Ok row)
      end
  end.

End WithRuntime.

End Transport.
Export Transport.

(** ** table.go: the facade *)

Module Tbl.

Record Table := mkTable {
  tClient : Client;
  tName : string
}.

Definition TSelect (t : Table) (cols : list string) : QueryBuilder :=
  mkQB (tClient t) (tName t) cols [] "" "" None None.

Definition TGet (t : Table) : QueryBuilder := TSelect t ["*"].

Definition GetByID (t : Table) (id : GoValue) : QueryBuilder :=
  Limit 1 (Eq "id" id (TSelect t ["*"])).

Definition Where (t : Table) : QueryBuilder :=
  mkQB (tClient t) (tName t) [] [] "" "" None None.

End Tbl.
Export Tbl.

(** ** storage.go *)

Module Storage.

Definition int64_min : Z := - 2 ^ 63.
Definition int64_max : Z := 2 ^ 63 - 1.

(** The integer part, towards zero, of [(-1)^s * m * 2^e]. *)
Definition truncate (s : bool) (m : positive) (e : Z) : Z :=
  let a := if Z.leb 0 e then Z.shiftl (Z.pos m) e
           else Z.shiftr (Z.pos m) (- e) in
  if s then - a else a.

(** A 64-bit pattern read as an [int64]. *)
Definition wrap64 (z : Z) : Z := (z + 2 ^ 63) mod 2 ^ 64 - 2 ^ 63.

(** The conversion [int64(f)] of a [float64]: the fraction is discarded.  A
    value that has no [int64] (NaN, an infinity, a magnitude of 2^63 or
    more) converts to whatever 64 bits the platform leaves, [overflow f]. *)
Definition int64_of_float64 (overflow : float -> Z) (f : float) : Z :=
  match Prim2SF f with
  | S754_zero _ => 0
  | S754_finite s m e =>
      let t := truncate s m e in
      if Z.leb int64_min t && Z.leb t int64_max then t
      else wrap64 (overflow f)
  | _ => wrap64 (overflow f)
  end.

(** The conversion [float64(n)] of an [int64]. *)
Definition float64_of_int64 (n : Z) : float :=
  SF2Prim (binary_normalize prec emax n 0 false).

Record StorageClient := mkStorageClient {
  sProjectURL : string;
  sApiKey : string;
  autoCheckQuota : bool
}.

Definition NewStorageClient (projectURL apiKey : string) : StorageClient :=
  mkStorageClient projectURL apiKey true.

Definition NewStorageClientWithOptions (projectURL apiKey : string)
    (autoCheckQuota : bool) : StorageClient :=
  mkStorageClient projectURL apiKey autoCheckQuota.

Section WithRuntime.
Context (rt : Runtime).

(** [StorageQuota.UnmarshalJSON] (models.go): decode the tagged fields into
    the receiver, then store the three byte counts. *)
Definition UnmarshalJSON (data : JSON) (sq : StorageQuota) : option StorageQuota :=
  match decodeQuotaFields rt data sq with
  | None => None
  | Some sq =>
      Some (mkStorageQuota
              (StorageQuotaGB sq) (StorageUsedGB sq) (StorageExpansionGB sq)
              (StorageAvailableGB sq) (UsagePercentage sq)
              (CanExpandStorage sq) (IsEnterprise sq) (PlanName sq)
              (int64_of_float64 (int64Overflow rt) (StorageQuotaGB sq * 1024 * 1024 * 1024)%float)
              (int64_of_float64 (int64Overflow rt) (StorageUsedGB sq * 1024 * 1024 * 1024)%float)
              (int64_of_float64 (int64Overflow rt) (StorageAvailableGB sq * 1024 * 1024 * 1024)%float))
  end.

Fixpoint formatBytesLoop (fuel : nat) (n div : Z) (exp : nat) : Z * nat :=
  match fuel with
  | O => (div, exp)
  | S fuel' =>
      if Z.leb 1024 n
      then formatBytesLoop fuel' (Z.quot n 1024) (div * 1024) (S exp)
      else (div, exp)
  end.

(** [formatBytes].  The loop runs at most six times on an [int64], so the
    fuel below never runs out and the index into ["KMGTPE"] is in range. *)
Definition formatBytes (bytes : Z) : string :=
  if Z.ltb bytes 1024 then itoa bytes +:+ " B"
  else
    let '(div, exp) := formatBytesLoop 64 (Z.quot bytes 1024) 1024 0 in
    sprintf2f rt (float64_of_int64 bytes / float64_of_int64 div)%float
      +:+ " "
      +:+ match String.get exp "KMGTPE" with
          | Some c => String c ""
          | None => ""
          end
      +:+ "B".

(** [StorageClient.doRequest]. *)
Definition doRequest (s : StorageClient) (method path : string)
    (body : option (gmap string BodyValue)) (log : list HttpRequest)
  : list HttpRequest * result (option JSON) :=
  let bodyReader := match body with
                    | Some m => JsonBody (marshalBody m)
                    | None => NoBody
                    end in
  let url := sProjectURL s +:+ path in
  if urlError rt url then (log, Err (ErrWrapped "failed to create request" url))
  else
    let req := mkRequest method url
                 [("Content-Type", "application/json");
                  ("Accept", "application/json");
                  ("Authorization", "Bearer " +:+ sApiKey s)]
                 bodyReader in
    match backend rt log req with
    | DoFails cause =>
        (log ++ [req], Err (ErrStorage (mkStorageError "" 0 ∅ (Some cause))))
    | ReadFails _ cause =>
        (log ++ [req], Err (ErrWrapped "failed to read response body" cause))
    | Responds status respBody =>
        if failedStatus status
        then (log ++ [req], Err (parseStorageError status respBody))
        else (log ++ [req], Ok respBody)
    end.

(** [StorageClient.GetQuota]. *)
Definition GetQuota (s : StorageClient) (log : list HttpRequest)
  : list HttpRequest * result StorageQuota :=
  let '(log1, r) := doRequest s "GET" "/api/v1/storage/quota" None log in
  match r with
  | Err e => (log1, Err e)
  | Ok resp =>
      match resp ≫= (fun data => UnmarshalJSON data zeroStorageQuota) with
      | None => (log1, Err (ErrWrapped "failed to parse response" ""))
      | Some quota => (log1, Ok quota)
      end
  end.

(** The request that [Upload] builds once the quota guard has let it
    through.  Writing the multipart form into a [bytes.Buffer] cannot fail,
    so those error returns have no counterpart here. *)
Definition uploadRequest (s : StorageClient) (fileData : list byte)
    (key contentType : string) : HttpRequest :=
  mkRequest "POST" (sProjectURL s +:+ "/api/v1/storage/upload")
    [("Content-Type", "multipart/form-data; boundary=" +:+ boundary rt);
     ("Authorization", "Bearer " +:+ sApiKey s)]
    (MultipartBody
       ([FormField "key" key]
        ++ (if negb (String.eqb contentType "")
            then [FormField "content_type" contentType] else [])
        ++ [FormFile "file" key fileData])).

(** [StorageClient.Upload]; [checkQuota] is the [*bool] argument. *)
Definition Upload (s : StorageClient) (fileData : list byte)
    (key contentType : string) (checkQuota : option bool)
    (log : list HttpRequest)
  : list HttpRequest * result FileUploadResult :=
  let shouldCheck := match checkQuota with
                     | Some b => b
                     | None => autoCheckQuota s
                     end in
  let size := Z.of_nat (length fileData) in
  let '(log1, stop) :=
    if shouldCheck then
      let '(log1, q) := GetQuota s log in
      match q with
      | Err e => (log1, Some e)
      | Ok quota =>
          if Z.ltb (StorageAvailableBytes quota) size
          then (log1,
                Some (ErrStorageLimitExceeded
                        (mkStorageLimitExceededError
                           ("Storage limit exceeded. Need " +:+ formatBytes size
                            +:+ ", but only "
                            +:+ formatBytes (StorageAvailableBytes quota)
                            +:+ " available.")
                           size (StorageAvailableBytes quota) 0 ∅)))
          else (log1, None)
      end
    else (log, None) in
  match stop with
  | Some e => (log1, Err e)
  | None =>
      let req := uploadRequest s fileData key contentType in
      if urlError rt (reqURL req)
      then (log1, Err (ErrWrapped "failed to create request" (reqURL req)))
      else
        match backend rt log1 req with
        | DoFails cause =>
            (log1 ++ [req], Err (ErrStorage (mkStorageError "" 0 ∅ (Some cause))))
        | ReadFails _ cause =>
            (log1 ++ [req], Err (ErrWrapped "failed to read response body" cause))
        | Responds status respBody =>
            if failedStatus status
            then (log1 ++ [req], Err (parseStorageError status respBody))
            else
              match respBody ≫= decodeFileUploadResult rt with
              | None => (log1 ++ [req], Err (ErrWrapped "failed to parse response" ""))
              | Some res => (log1 ++ [req], Ok res)
              end
        end
  end.

End WithRuntime.

End Storage.
Export Storage.

(** ** auth_client.go: base URL derivation *)

Module Auth.

(** The UTF-8 encodings of the code points for which [unicode.IsSpace]
    holds. *)
Definition bytes3 (a b c : nat) : string :=
  String (ascii_of_nat a) (String (ascii_of_nat b) (String (ascii_of_nat c) "")).

Definition spaces : list string :=
  [ String (ascii_of_nat 9) ""; String (ascii_of_nat 10) "";
    String (ascii_of_nat 11) ""; String (ascii_of_nat 12) "";
    String (ascii_of_nat 13) ""; " ";
    String (ascii_of_nat 194) (String (ascii_of_nat 133) "");
    String (ascii_of_nat 194) (String (ascii_of_nat 160) "");
    bytes3 225 154 128;
    bytes3 226 128 128; bytes3 226 128 129; bytes3 226 128 130;
    bytes3 226 128 131; bytes3 226 128 132; bytes3 226 128 133;
    bytes3 226 128 134; bytes3 226 128 135; bytes3 226 128 136;
    bytes3 226 128 137; bytes3 226 128 138;
    bytes3 226 128 168; bytes3 226 128 169; bytes3 226 128 175;
    bytes3 226 129 159; bytes3 227 128 128 ].

(** [strings.HasPrefix], [strings.HasSuffix], [strings.TrimSuffix]. *)
Definition HasPrefix (s p : string) : bool := String.prefix p s.

Definition HasSuffix (s suffix : string) : bool :=
  String.prefix (String.rev suffix) (String.rev s).

Definition dropPrefix (s p : string) : string :=
  substring (String.length p) (String.length s - String.length p) s.

Definition TrimSuffix (s suffix : string) : string :=
  if HasSuffix s suffix
  then substring 0 (String.length s - String.length suffix) s
  else s.

(** One leading white-space code point removed, if there is one. *)
Definition dropSpace (s : string) : option string :=
  match List.filter (HasPrefix s) spaces with
  | sp :: _ => Some (dropPrefix s sp)
  | [] => None
  end.

Fixpoint trimLeft (fuel : nat) (s : string) : string :=
  match fuel with
  | O => s
  | S fuel' =>
      match dropSpace s with
      | Some s' => trimLeft fuel' s'
      | None => s
      end
  end.

Definition TrimLeftSpace (s : string) : string := trimLeft (String.length s) s.

(** [strings.TrimSpace]: the trailing side is the leading side of the
    reversed bytes, against the reversed encodings. *)
Definition dropSpaceRight (s : string) : option string :=
  match List.filter (HasSuffix s) spaces with
  | sp :: _ => Some (TrimSuffix s sp)
  | [] => None
  end.

Fixpoint trimRight (fuel : nat) (s : string) : string :=
  match fuel with
  | O => s
  | S fuel' =>
      match dropSpaceRight s with
      | Some s' => trimRight fuel' s'
      | None => s
      end
  end.

Definition TrimSpace (s : string) : string :=
  let s := TrimLeftSpace s in
  trimRight (String.length s) s.

(** [strings.Contains]. *)
Fixpoint Contains (s sub : string) : bool :=
  HasPrefix s sub ||
  match s with
  | EmptyString => false
  | String _ rest => Contains rest sub
  end.

Definition protocolOf (secure : bool) : string :=
  if negb secure then "http" else "https".

Definition buildAuthBaseURL (projectURL baseDomain : string) (secure : bool)
  : string :=
  let baseDomain := if String.eqb baseDomain "" then "wowmysql.com"
                    else baseDomain in
  let normalized := TrimSpace projectURL in
  if HasPrefix normalized "http://" || HasPrefix normalized "https://" then
    let normalized := TrimSuffix normalized "/" in
    let normalized := if HasSuffix normalized "/api"
                      then TrimSuffix normalized "/api" else normalized in
    normalized +:+ "/api/auth"
  else
    let normalized :=
      if Contains normalized ("." +:+ baseDomain) || HasSuffix normalized baseDomain
      then protocolOf secure +:+ "://" +:+ normalized
      else protocolOf secure +:+ "://" +:+ normalized +:+ "." +:+ baseDomain in
    let normalized := TrimSuffix normalized "/" in
    let normalized := if HasSuffix normalized "/api"
                      then TrimSuffix normalized "/api" else normalized in
    normalized +:+ "/api/auth".

(** [AuthConfig], with the fields that reach [buildAuthBaseURL]; the zero
    value of the struct has [Secure = false]. *)
Record AuthConfig := mkAuthConfig {
  ProjectURL : string;
  BaseDomain : string;
  Secure : bool
}.

Definition NewAuthClient_baseURL (config : AuthConfig) : string :=
  buildAuthBaseURL (ProjectURL config) (BaseDomain config) (Secure config).

End Auth.
Export Auth.

(** ** Observations on results, and sample environments *)

Module Observe.

Inductive Kind : Type :=
| AuthenticationKind
| NotFoundKind
| RateLimitKind
| GenericKind
| NetworkKind
| StorageKind
| StorageLimitExceededKind
| WrappedKind.

(** The dynamic type of an error, as [errors.As] tells it. *)
Definition kindOf (e : error) : Kind :=
  match e with
  | ErrWowMySQL _ => GenericKind
  | ErrAuthentication _ => AuthenticationKind
  | ErrNotFound _ => NotFoundKind
  | ErrRateLimit _ => RateLimitKind
  | ErrNetwork _ => NetworkKind
  | ErrStorage _ => StorageKind
  | ErrStorageLimitExceeded _ => StorageLimitExceededKind
  | ErrWrapped _ _ => WrappedKind
  end.

(** The [Message] field of an error that has one. *)
Definition messageOf (e : error) : string :=
  match e with
  | ErrWowMySQL w | ErrAuthentication w | ErrNotFound w | ErrRateLimit w =>
      Message w
  | ErrStorage w => SMessage w
  | ErrStorageLimitExceeded w => LMessage w
  | ErrNetwork _ | ErrWrapped _ _ => ""
  end.

(** The request [Execute] hands to the transport for a builder. *)
Definition queryRequest (qb : QueryBuilder) : HttpRequest :=
  mkRequest "POST"
    (projectURL (client qb) +:+ "/api/v1/tables/" +:+ tableName qb +:+ "/query")
    [("Content-Type", "application/json");
     ("Accept", "application/json");
     ("Authorization", "Bearer " +:+ apiKey (client qb))]
    (JsonBody (marshalBody (buildQueryBody qb))).

(** The request [GetQuota] hands to the transport. *)
Definition quotaRequest (s : StorageClient) : HttpRequest :=
  mkRequest "GET" (sProjectURL s +:+ "/api/v1/storage/quota")
    [("Content-Type", "application/json");
     ("Accept", "application/json");
     ("Authorization", "Bearer " +:+ sApiKey s)]
    NoBody.

Definition jsonOf (b : ReqBody) : JSON :=
  match b with
  | JsonBody j => j
  | _ => JNull
  end.

End Observe.
Export Observe.

Module Samples.

Definition sampleClient : Client := mkClient "https://demo.wowmysql.com" "key".

Definition sampleBuilder : QueryBuilder :=
  Eq "email" (GString "john@example.com") (TSelect (mkTable sampleClient "users") ["*"]).

Definition sampleStorage : StorageClient :=
  NewStorageClient "https://demo.wowmysql.com" "key".

(** A quota document as [json.Unmarshal] decodes it into the tagged fields:
    10 GB in all, 2.5 GB used, 7.5 GB available. *)
Definition sampleQuotaFields (sq : StorageQuota) : StorageQuota :=
  mkStorageQuota 10%float 2.5%float 0%float 7.5%float 25%float false false "pro"
    (StorageQuotaBytes sq) (StorageUsedBytes sq) (StorageAvailableBytes sq).

(** A quota of one byte short of nothing: 2^-30 GB available. *)
Definition tinyQuotaFields (sq : StorageQuota) : StorageQuota :=
  mkStorageQuota 1%float 1%float 0%float 0x1p-30%float 100%float false false "free"
    (StorageQuotaBytes sq) (StorageUsedBytes sq) (StorageAvailableBytes sq).

(** A quota of 1e10 GB, more bytes than an [int64] holds. *)
Definition hugeQuotaFields (sq : StorageQuota) : StorageQuota :=
  mkStorageQuota 1e10%float 0%float 0%float 1e10%float 0%float false true "huge"
    (StorageQuotaBytes sq) (StorageUsedBytes sq) (StorageAvailableBytes sq).

(** An environment in which every URL is accepted, the backend answers by
    [answer], query responses decode to [rows] and quota documents to
    [quota]; a conversion out of range leaves -2^63, as on amd64. *)
Definition sampleRuntime (answer : HttpRequest -> RoundTrip) (rows : list Row)
    (quota : StorageQuota -> StorageQuota) : Runtime :=
  mkRuntime (fun _ => false) (fun _ req => answer req)
    (fun _ => Some (mkQueryResponse rows (Z.of_nat (length rows)) None None))
    (fun _ sq => Some (quota sq))
    (fun _ => Some (mkFileUploadResult "uploads/a.txt" 5 "https://cdn/a.txt" true))
    (fun _ => "0.00")
    "b0undary"
    (fun _ => - 2 ^ 63).

Definition sampleRow : Row :=
  Some {[ "email" := JString "john@example.com" ]}.

(** A backend that answers every request with status [status] and [body]. *)
Definition always (status : Z) (body : JSON) : HttpRequest -> RoundTrip :=
  fun _ => Responds status (Some body).

(** A backend that serves the quota document and refuses uploads with
    [status]. *)
Definition quotaThenStatus (status : Z) : HttpRequest -> RoundTrip :=
  fun req =>
    if String.eqb (reqMethod req) "GET" then Responds 200 (Some (JObject []))
    else Responds status (Some (JObject [("error", JString "too large")])).

Definition fiveBytes : list byte := [x68; x65; x6c; x6c; x6f].

End Samples.
Export Samples.

(** ** The specification's reading of a filter call *)

Module Expected.


(** The operators whose mutator takes a value. *)
Definition valueCarrying : list FilterOperator :=
  [OpEq; OpNeq; OpGt; OpGte; OpLt; OpLte; OpLike].

(** The entry the specification expects a call to record: its column, the
    operator named after the mutator, and the value passed (none for
    is-null). *)
Definition expectedEntry (c : FilterCall) : FilterExpression :=
  match c with
  | CallEq col v => mkFilter col OpEq v
  | CallNeq col v => mkFilter col OpNeq v
  | CallGt col v => mkFilter col OpGt v
  | CallGte col v => mkFilter col OpGte v
  | CallLt col v => mkFilter col OpLt v
  | CallLte col v => mkFilter col OpLte v
  | CallLike col p => mkFilter col OpLike (GString p)
  | CallIsNull col => mkFilter col OpIsNull GNil
  end.

(** The six mutators that take an [interface{}] value, with their operator. *)
Definition valueMutators
  : list ((string -> GoValue -> QueryBuilder -> QueryBuilder) * FilterOperator) :=
  [(Eq, OpEq); (Neq, OpNeq); (Gt, OpGt); (Gte, OpGte); (Lt, OpLt); (Lte, OpLte)].

(** [a * 2^n] on positive mantissas. *)
Definition shl (a : positive) (n : nat) : positive := Nat.iter n xO a.

(** The byte count the specification derives from a GB value: the value
    times 2^30, truncated to an integer.  A [float64] that is not a number
    has none. *)
Definition exactBytes (gb : float) : option Z :=
  match Prim2SF gb with
  | S754_zero _ => Some 0
  | S754_finite s m e => Some (truncate s m (e + 30))
  | _ => None
  end.

End Expected.
Export Expected.

(** ** query_builder.go, table.go: update, delete and the by-id calls *)

Module Mutations.

Record UpdateResponse := mkUpdateResponse {
  UpdAffectedRows : Z;
  UpdSuccess : bool
}.

Record DeleteResponse := mkDeleteResponse {
  DelAffectedRows : Z;
  DelSuccess : bool
}.

(** A [map[string]interface{}] argument; [None] is the nil map, which
    encodes as [null]. *)
Definition GoMap := option (gmap string GoValue).

Definition marshalGoMap (m : GoMap) : JSON :=
  match m with
  | None => JNull
  | Some m =>
      JObject (sortMembers
                 (List.map (fun kv => (fst kv, marshalValue (snd kv)))
                           (map_to_list m)))
  end.

(** What the body map of [Update] and [Delete] holds under a key. *)
Inductive MutationValue : Type :=
| MData (data : GoMap)
| MFilters (l : list FilterExpression).

Definition marshalMutationValue (v : MutationValue) : JSON :=
  match v with
  | MData d => marshalGoMap d
  | MFilters l => JArray (List.map marshalFilter l)
  end.

Definition marshalMutationBody (body : gmap string MutationValue) : JSON :=
  JObject (sortMembers
             (List.map (fun kv => (fst kv, marshalMutationValue (snd kv)))
                       (map_to_list body))).

(** [json.Unmarshal] into the typed structs of the calls below. *)
Record Decoders := mkDecoders {
  decodeUpdateResponse : JSON -> option UpdateResponse;
  decodeDeleteResponse : JSON -> option DeleteResponse
}.

Section WithRuntime.
Context (rt : Runtime) (dec : Decoders).

(** [Client.doRequest] on a body of any Go type that encodes, given by its
    encoding; [None] is the nil body. *)
Definition doRequestJSON (c : Client) (method path : string)
    (body : option JSON) (log : list HttpRequest)
  : list HttpRequest * result (option JSON) :=
  let bodyReader := match body with
                    | Some j => JsonBody j
                    | None => NoBody
                    end in
  let url := projectURL c +:+ path in
  if urlError rt url then (log, Err (ErrWrapped "failed to create request" url))
  else
    let req := mkRequest method url
                 [("Content-Type", "application/json");
                  ("Accept", "application/json");
                  ("Authorization", "Bearer " +:+ apiKey c)]
                 bodyReader in
    match backend rt log req with
    | DoFails cause => (log ++ [req], Err (ErrNetwork cause))
    | ReadFails _ cause =>
        (log ++ [req], Err (ErrWrapped "failed to read response body" cause))
    | Responds status respBody =>
        if failedStatus status
        then (log ++ [req], Err (parseError status respBody))
        else (log ++ [req], Ok respBody)
    end.

(** The body map of [Update]. *)
Definition updateBody (qb : QueryBuilder) (data : GoMap)
  : gmap string MutationValue :=
  let body : gmap string MutationValue := {[ "data" := MData data ]} in
  if Z.ltb 0 (Z.of_nat (length (filters qb)))
  then <["filters" := MFilters (filters qb)]> body else body.

(** [QueryBuilder.Update]. *)
Definition Update (qb : QueryBuilder) (data : GoMap) (log : list HttpRequest)
  : list HttpRequest * result UpdateResponse :=
  let body := updateBody qb data in
  let '(log1, r) :=
    doRequestJSON (client qb) "PUT" ("/api/v1/tables/" +:+ tableName qb)
      (Some (marshalMutationBody body)) log in
  match r with
  | Err e => (log1, Err e)
  | Ok resp =>
      match resp ≫= decodeUpdateResponse dec with
      | None => (log1, Err (ErrWrapped "failed to parse response" ""))
      | Some res => (log1, Ok res)
      end
  end.

(** The body map of [Delete]. *)
Definition deleteBody (qb : QueryBuilder) : gmap string MutationValue :=
  let body : gmap string MutationValue := ∅ in
  if Z.ltb 0 (Z.of_nat (length (filters qb)))
  then <["filters" := MFilters (filters qb)]> body else body.

(** [QueryBuilder.Delete]. *)
Definition Delete (qb : QueryBuilder) (log : list HttpRequest)
  : list HttpRequest * result DeleteResponse :=
  let body := deleteBody qb in
  let '(log1, r) :=
    doRequestJSON (client qb) "DELETE" ("/api/v1/tables/" +:+ tableName qb)
      (Some (marshalMutationBody body)) log in
  match r with
  | Err e => (log1, Err e)
  | Ok resp =>
      match resp ≫= decodeDeleteResponse dec with
      | None => (log1, Err (ErrWrapped "failed to parse response" ""))
      | Some res => (log1, Ok res)
      end
  end.

(** [Table.UpdateByID] and [Table.DeleteByID]. *)
Definition UpdateByID (t : Table) (id : GoValue) (data : GoMap)
    (log : list HttpRequest) :=
  Update (Eq "id" id (Where t)) data log.

Definition DeleteByID (t : Table) (id : GoValue) (log : list HttpRequest) :=
  Delete (Eq "id" id (Where t)) log.

End WithRuntime.

(** The request [Update] and [Delete] hand to the transport. *)
Definition mutationRequest (method : string) (qb : QueryBuilder)
    (body : gmap string MutationValue) : HttpRequest :=
  mkRequest method
    (projectURL (client qb) +:+ "/api/v1/tables/" +:+ tableName qb)
    [("Content-Type", "application/json");
     ("Accept", "application/json");
     ("Authorization", "Bearer " +:+ apiKey (client qb))]
    (JsonBody (marshalMutationBody body)).

(** [Client.Table]. *)
Definition ClientTable (c : Client) (tableName : string) : Table :=
  mkTable c tableName.

End Mutations.
Export Mutations.

(** ** The [Error] methods (table.go, second half) *)

Module ErrorText.

Section WithRuntime.
Context (rt : Runtime).

Definition WowMySQLError_Error (e : WowMySQLError) : string :=
  if Z.ltb 0 (StatusCode e)
  then "WowMySQLError(" +:+ itoa (StatusCode e) +:+ "): " +:+ Message e
  else "WowMySQLError: " +:+ Message e.

Definition NetworkError_Error (cause : string) : string :=
  "NetworkError: " +:+ cause.

Definition StorageError_Error (e : StorageError) : string :=
  if Z.ltb 0 (SStatusCode e)
  then "StorageError(" +:+ itoa (SStatusCode e) +:+ "): " +:+ SMessage e
  else match SErr e with
       | Some cause => "StorageError: " +:+ cause
       | None => "StorageError: " +:+ SMessage e
       end.

Definition StorageLimitExceededError_Error (e : StorageLimitExceededError)
  : string :=
  if Z.ltb 0 (RequiredBytes e) && Z.ltb 0 (AvailableBytes e)
  then "StorageLimitExceededError: " +:+ LMessage e
       +:+ " (Required: " +:+ formatBytes rt (RequiredBytes e)
       +:+ ", Available: " +:+ formatBytes rt (AvailableBytes e) +:+ ")"
  else "StorageLimitExceededError: " +:+ LMessage e.

(** [err.Error()] by dynamic type.  The three types that embed
    [WowMySQLError] get its method by promotion. *)
Definition errorString (e : error) : string :=
  match e with
  | ErrWowMySQL w | ErrAuthentication w | ErrNotFound w | ErrRateLimit w =>
      WowMySQLError_Error w
  | ErrNetwork cause => NetworkError_Error cause
  | ErrStorage w => StorageError_Error w
  | ErrStorageLimitExceeded w => StorageLimitExceededError_Error w
  | ErrWrapped msg cause => msg +:+ ": " +:+ cause
  end.

End WithRuntime.


End ErrorText.
Export ErrorText.

(** ** storage.go: the remaining calls *)

Module Files.

Record StorageFile := mkStorageFile {
  FileKey : string;
  FileSize : Z;
  LastModified : string;
  ContentType : option string;
  ETag : option string
}.

(** [json.Unmarshal] into [StorageFile], into the [{files}] wrapper of
    [ListFiles] and into the [{url}] wrapper of [Download]. *)
Record FileDecoders := mkFileDecoders {
  decodeStorageFile : JSON -> option StorageFile;
  decodeFileList : JSON -> option (list StorageFile);
  decodeDownloadURL : JSON -> option string
}.

Section WithRuntime.
Context (rt : Runtime) (dec : FileDecoders).

(** [StorageClient.GetFileInfo]. *)
Definition GetFileInfo (s : StorageClient) (key : string)
    (log : list HttpRequest) : list HttpRequest * result StorageFile :=
  let url := "/api/v1/storage/info?key=" +:+ key in
  let '(log1, r) := Storage.doRequest rt s "GET" url None log in
  match r with
  | Err e => (log1, Err e)
  | Ok resp =>
      match resp ≫= decodeStorageFile dec with
      | None => (log1, Err (ErrWrapped "failed to parse response" ""))
      | Some file => (log1, Ok file)
      end
  end.

(** [StorageClient.FileExists]; the type assertion on [err] succeeds on
    the dynamic type [NotFoundError] (a pointer to it) only. *)
Definition FileExists (s : StorageClient) (key : string)
    (log : list HttpRequest) : list HttpRequest * result bool :=
  let '(log1, r) := GetFileInfo s key log in
  match r with
  | Err e =>
      match e with
      | ErrNotFound _ => (log1, Ok false)
      | _ => (log1, Err e)
      end
  | Ok _ => (log1, Ok true)
  end.

(** The path built by [ListFiles]. *)
Definition listPath (prefix : string) (limit : Z) : string :=
  let url := "/api/v1/storage/list" in
  if negb (String.eqb prefix "") || Z.ltb 0 limit then
    let url := url +:+ "?" in
    let url := if negb (String.eqb prefix "")
               then url +:+ "prefix=" +:+ prefix else url in
    if Z.ltb 0 limit then
      let url := if negb (String.eqb prefix "") then url +:+ "&" else url in
      url +:+ "limit=" +:+ itoa limit
    else url
  else url.

(** [StorageClient.ListFiles]. *)
Definition ListFiles (s : StorageClient) (prefix : string) (limit : Z)
    (log : list HttpRequest) : list HttpRequest * result (list StorageFile) :=
  let '(log1, r) := Storage.doRequest rt s "GET" (listPath prefix limit) None log in
  match r with
  | Err e => (log1, Err e)
  | Ok resp =>
      match resp ≫= decodeFileList dec with
      | None => (log1, Err (ErrWrapped "failed to parse response" ""))
      | Some files => (log1, Ok files)
      end
  end.

(** [StorageClient.Download]. *)
Definition Download (s : StorageClient) (key : string) (expiresIn : Z)
    (log : list HttpRequest) : list HttpRequest * result string :=
  let url := "/api/v1/storage/download?key=" +:+ key
             +:+ "&expires_in=" +:+ itoa expiresIn in
  let '(log1, r) := Storage.doRequest rt s "GET" url None log in
  match r with
  | Err e => (log1, Err e)
  | Ok resp =>
      match resp ≫= decodeDownloadURL dec with
      | None => (log1, Err (ErrWrapped "failed to parse response" ""))
      | Some u => (log1, Ok u)
      end
  end.

(** [StorageClient.DeleteFile]: the returned [error], [None] for nil. *)
Definition DeleteFile (s : StorageClient) (key : string)
    (log : list HttpRequest) : list HttpRequest * option error :=
  let body : gmap string BodyValue := {[ "key" := BString key ]} in
  let '(log1, r) :=
    Storage.doRequest rt s "DELETE" "/api/v1/storage/delete" (Some body) log in
  match r with
  | Err e => (log1, Some e)
  | Ok _ => (log1, None)
  end.

End WithRuntime.

End Files.
Export Files.

(** ** auth_client.go: the client *)

Module AuthCl.

Record AuthUser := mkAuthUser {
  UserID : string;
  UserEmail : string;
  UserFullName : string;
  UserAvatarURL : string;
  UserEmailVerified : bool;
  UserMetadata : gmap string JSON;
  UserAppMetadata : gmap string JSON;
  UserCreatedAt : string
}.

Record AuthSession := mkAuthSession {
  AccessToken : string;
  RefreshToken : string;
  TokenType : string;
  ExpiresIn : Z
}.

Record AuthResult := mkAuthResult {
  ResultUser : option AuthUser;
  ResultSession : AuthSession
}.

Record signUpRequest := mkSignUpRequest {
  reqEmail : string;
  reqPassword : string;
  reqFullName : option string;      (* `json:"full_name,omitempty"` *)
  reqUserMetadata : GoMap           (* `json:"user_metadata,omitempty"` *)
}.

Record authResponse := mkAuthResponse {
  respUser : option AuthUser;
  respAccessToken : string;
  respRefreshToken : string;
  respTokenType : string;
  respExpiresIn : Z
}.

Record loginResponse := mkLoginResponse {
  loginAccessToken : string;
  loginRefreshToken : string;
  loginTokenType : string;
  loginExpiresIn : Z
}.

Record AuthClient := mkAuthClient {
  baseURL : string;
  publicKey : string;
  accessToken : string;
  refreshToken : string
}.

(** [json.Unmarshal] into the typed responses. *)
Record AuthDecoders := mkAuthDecoders {
  decodeAuthResponse : JSON -> option authResponse;
  decodeLoginResponse : JSON -> option loginResponse;
  decodeAuthUser : JSON -> option AuthUser
}.

(** [NewAuthClient]; the public key is [config.PublicAPIKey]. *)
Definition NewAuthClient (config : AuthConfig) (publicAPIKey : string)
  : AuthClient :=
  mkAuthClient
    (buildAuthBaseURL (ProjectURL config) (BaseDomain config) (Secure config))
    publicAPIKey "" "".

(** [json.Marshal] of a [signUpRequest]: a nil [*string] and a map without
    entries are the empty values that [omitempty] drops. *)
Definition marshalSignUp (r : signUpRequest) : JSON :=
  JObject ([("email", JString (reqEmail r));
            ("password", JString (reqPassword r))]
           ++ match reqFullName r with
              | Some n => [("full_name", JString n)]
              | None => []
              end
           ++ match reqUserMetadata r with
              | Some m => if bool_decide (m = ∅) then []
                          else [("user_metadata", marshalGoMap (Some m))]
              | None => []
              end).

Definition marshalLogin (email password : string) : JSON :=
  JObject [("email", JString email); ("password", JString password)].

Definition WithFullName (fullName : string) : signUpRequest -> signUpRequest :=
  fun req => mkSignUpRequest (reqEmail req) (reqPassword req) (Some fullName)
                             (reqUserMetadata req).

Definition WithUserMetadata (metadata : GoMap) : signUpRequest -> signUpRequest :=
  fun req => mkSignUpRequest (reqEmail req) (reqPassword req) (reqFullName req)
                             metadata.

(** [req.Header.Set]: the value under a key is replaced, a new key is added.
    The keys this file sets are in canonical form already. *)
Fixpoint setHeader (k v : string) (hs : list (string * string))
  : list (string * string) :=
  match hs with
  | [] => [(k, v)]
  | (k', v') :: rest =>
      if String.eqb k k' then (k, v) :: rest else (k', v') :: setHeader k v rest
  end.

Fixpoint getHeader (k : string) (hs : list (string * string)) : option string :=
  match hs with
  | [] => None
  | (k', v') :: rest => if String.eqb k k' then Some v' else getHeader k rest
  end.

(** [GetSession], [SetSession], [ClearSession], [persistSession]. *)
Definition GetSession (c : AuthClient) : AuthSession :=
  mkAuthSession (accessToken c) (refreshToken c) "bearer" 0.

Definition SetSession (c : AuthClient) (access refresh : string) : AuthClient :=
  mkAuthClient (baseURL c) (publicKey c) access refresh.

Definition ClearSession (c : AuthClient) : AuthClient :=
  mkAuthClient (baseURL c) (publicKey c) "" "".

Definition persistSession (c : AuthClient) (session : AuthSession) : AuthClient :=
  mkAuthClient (baseURL c) (publicKey c) (AccessToken session)
               (RefreshToken session).

Section WithRuntime.
Context (rt : Runtime) (dec : AuthDecoders).

(** The headers of a request of [AuthClient.doRequest]; [headers] is the
    map argument, nil read as empty. *)
Definition authHeaders (c : AuthClient) (headers : list (string * string))
  : list (string * string) :=
  let hs := [("Content-Type", "application/json")] in
  let hs := if negb (String.eqb (publicKey c) "")
            then setHeader "X-Wow-Public-Key" (publicKey c) hs else hs in
  List.fold_left (fun acc kv => setHeader (fst kv) (snd kv) acc) headers hs.

(** [AuthClient.doRequest]. *)
Definition authDoRequest (c : AuthClient) (method path : string)
    (body : option JSON) (headers : list (string * string))
    (log : list HttpRequest)
  : list HttpRequest * result (option JSON) :=
  let reader := match body with
                | Some j => JsonBody j
                | None => NoBody
                end in
  let url := baseURL c +:+ path in
  if urlError rt url then (log, Err (ErrWrapped "failed to create request" url))
  else
    let req := mkRequest method url (authHeaders c headers) reader in
    match backend rt log req with
    | DoFails cause => (log ++ [req], Err (ErrNetwork cause))
    | ReadFails _ cause =>
        (log ++ [req], Err (ErrWrapped "failed to read response body" cause))
    | Responds status bodyBytes =>
        if failedStatus status
        then (log ++ [req], Err (parseError status bodyBytes))
        else (log ++ [req], Ok bodyBytes)
    end.

(** [AuthClient.SignUp]: the client after the call, the log, the result. *)
Definition SignUp (c : AuthClient) (email password : string)
    (options : list (signUpRequest -> signUpRequest)) (log : list HttpRequest)
  : AuthClient * list HttpRequest * result AuthResult :=
  let payload := List.fold_left (fun p opt => opt p) options
                   (mkSignUpRequest email password None None) in
  let '(log1, r) :=
    authDoRequest c "POST" "/signup" (Some (marshalSignUp payload)) [] log in
  match r with
  | Err e => (c, log1, Err e)
  | Ok body =>
      match body ≫= decodeAuthResponse dec with
      | None => (c, log1, Err (ErrWrapped "failed to parse signup response" ""))
      | Some resp =>
          let session := mkAuthSession (respAccessToken resp)
                           (respRefreshToken resp) (respTokenType resp)
                           (respExpiresIn resp) in
          (persistSession c session, log1,
           Ok (mkAuthResult (respUser resp) session))
      end
  end.

(** [AuthClient.SignIn]. *)
Definition SignIn (c : AuthClient) (email password : string)
    (log : list HttpRequest)
  : AuthClient * list HttpRequest * result AuthResult :=
  let '(log1, r) :=
    authDoRequest c "POST" "/login" (Some (marshalLogin email password)) [] log in
  match r with
  | Err e => (c, log1, Err e)
  | Ok body =>
      match body ≫= decodeLoginResponse dec with
      | None => (c, log1, Err (ErrWrapped "failed to parse login response" ""))
      | Some resp =>
          let session := mkAuthSession (loginAccessToken resp)
                           (loginRefreshToken resp) (loginTokenType resp)
                           (loginExpiresIn resp) in
          (persistSession c session, log1, Ok (mkAuthResult None session))
      end
  end.

(** The token [GetUser] sends: the first override when there is one and it
    is not empty, the stored access token otherwise. *)
Definition userToken (c : AuthClient) (tokenOverride : list string) : string :=
  match tokenOverride with
  | t :: _ => if negb (String.eqb t "") then t else accessToken c
  | [] => accessToken c
  end.

(** [AuthClient.GetUser]; [tokenOverride] is the variadic argument. *)
Definition GetUser (c : AuthClient) (tokenOverride : list string)
    (log : list HttpRequest) : list HttpRequest * result AuthUser :=
  let token := userToken c tokenOverride in
  if String.eqb token ""
  then (log, Err (ErrWowMySQL
                    (mkWowMySQLError
                       "access token is required to fetch user profile" 0 ∅)))
  else
    let headers := [("Authorization", "Bearer " +:+ token)] in
    let '(log1, r) := authDoRequest c "GET" "/me" None headers log in
    match r with
    | Err e => (log1, Err e)
    | Ok body =>
        match body ≫= decodeAuthUser dec with
        | None => (log1, Err (ErrWrapped "failed to parse user response" ""))
        | Some user => (log1, Ok user)
        end
    end.

(** [AuthClient.ExchangeOAuthCallback]; [redirectURI] is the [*string]. *)
Definition ExchangeOAuthCallback (c : AuthClient) (provider code : string)
    (redirectURI : option string) (log : list HttpRequest)
  : AuthClient * list HttpRequest * result AuthResult :=
  let payload : gmap string BodyValue := {[ "code" := BString code ]} in
  let payload := match redirectURI with
                 | Some u => <["redirect_uri" := BString u]> payload
                 | None => payload
                 end in
  let '(log1, r) :=
    authDoRequest c "POST" ("/oauth/" +:+ provider +:+ "/callback")
      (Some (marshalBody payload)) [] log in
  match r with
  | Err e => (c, log1, Err e)
  | Ok body =>
      match body ≫= decodeAuthResponse dec with
      | None =>
          (c, log1, Err (ErrWrapped "failed to parse oauth callback response" ""))
      | Some resp =>
          let session := mkAuthSession (respAccessToken resp)
                           (respRefreshToken resp) (respTokenType resp)
                           (respExpiresIn resp) in
          (persistSession c session, log1,
           Ok (mkAuthResult (respUser resp) session))
      end
  end.

End WithRuntime.

End AuthCl.
Export AuthCl.


(** ** Chains of mutator calls of every kind *)

Module Chains.

(** One call of a mutator of the builder, as data. *)
Inductive Mutator : Type :=
| MFilter (c : FilterCall)
| MSelect (cols : list string)
| MOrderBy (column : string) (direction : SortDirection)
| MLimit (n : Z)
| MOffset (n : Z).

Definition applyMutator (m : Mutator) (qb : QueryBuilder) : QueryBuilder :=
  match m with
  | MFilter c => call c qb
  | MSelect cols => Select cols qb
  | MOrderBy column direction => OrderBy column direction qb
  | MLimit n => Limit n qb
  | MOffset n => Offset n qb
  end.

(** The calls applied left to right, as a fluent chain does. *)
Definition runChain (ms : list Mutator) (qb : QueryBuilder) : QueryBuilder :=
  List.fold_left (fun b m => applyMutator m b) ms qb.

(** The argument of the last call of one kind in a chain, if there is one. *)
Fixpoint lastOf {A : Type} (pick : Mutator -> option A) (ms : list Mutator)
  : option A :=
  match ms with
  | [] => None
  | m :: rest =>
      match lastOf pick rest with
      | Some a => Some a
      | None => pick m
      end
  end.

Definition pickSelect (m : Mutator) : option (list string) :=
  match m with MSelect cols => Some cols | _ => None end.

Definition pickOrder (m : Mutator) : option (string * SortDirection) :=
  match m with MOrderBy c d => Some (c, d) | _ => None end.

Definition pickLimit (m : Mutator) : option Z :=
  match m with MLimit n => Some n | _ => None end.

Definition pickOffset (m : Mutator) : option Z :=
  match m with MOffset n => Some n | _ => None end.

(** The filter calls of a chain, in order. *)
Fixpoint filterCalls (ms : list Mutator) : list FilterCall :=
  match ms with
  | [] => []
  | MFilter c :: rest => c :: filterCalls rest
  | _ :: rest => filterCalls rest
  end.

End Chains.
Export Chains.

(** ** More sample environments *)

Module MoreSamples.

(** Decoders that read every document as one five-byte file, an empty
    listing and one download URL. *)
Definition sampleFileDecoders : FileDecoders :=
  mkFileDecoders
    (fun _ => Some (mkStorageFile "uploads/a.txt" 5 "2024-01-01T00:00:00Z"
                      None None))
    (fun _ => Some [])
    (fun _ => Some "https://cdn/a.txt").

(** A transport on which every connection is refused. *)
Definition refused : HttpRequest -> RoundTrip :=
  fun _ => DoFails "connection refused".

End MoreSamples.
Export MoreSamples.

(** * Properties *)

(** ** Encoded objects and the maps they come from *)

Lemma leb_refl (s : string) : String.leb s s = true.
Proof. destruct (String.leb_total s s); assumption. Qed.

Lemma assoc_insertSorted k kv ms :
  assoc k (insertSorted kv ms) =
  if String.eqb k (fst kv) then Some (snd kv) else assoc k ms.
Proof.
  destruct kv as [k' v']; simpl.
  induction ms as [|[k'' v''] ms IH]; simpl.
  - reflexivity.
  - destruct (String.leb k' k'') eqn:Hle; simpl.
    + reflexivity.
    + rewrite IH.
      destruct (String.eqb_spec k k'); [|reflexivity].
      destruct (String.eqb_spec k k''); [|reflexivity].
      subst. rewrite leb_refl in Hle. discriminate.
Qed.

Lemma assoc_sortMembers k ms : assoc k (sortMembers ms) = assoc k ms.
Proof.
  induction ms as [|[k' v'] ms IH]; simpl; [reflexivity|].
  rewrite assoc_insertSorted; simpl. now rewrite IH.
Qed.

Lemma assoc_list_to_map {A} (f : A -> JSON) k (l : list (string * A)) :
  assoc k (List.map (fun kv => (fst kv, f (snd kv))) l)
  = f <$> (list_to_map l : gmap string A) !! k.
Proof.
  induction l as [|[k' v'] l IH]; simpl.
  - now rewrite lookup_empty.
  - destruct (String.eqb_spec k k') as [->|Hne].
    + now rewrite lookup_insert_eq.
    + rewrite lookup_insert_ne by congruence. exact IH.
Qed.

Lemma member_marshalBody k (body : gmap string BodyValue) :
  member k (marshalBody body) = marshalBodyValue <$> body !! k.
Proof.
  unfold marshalBody, member.
  rewrite assoc_sortMembers, assoc_list_to_map.
  now rewrite list_to_map_to_list.
Qed.

Lemma keys_insertSorted kv ms k :
  k ∈ List.map fst (insertSorted kv ms) <-> k = fst kv \/ k ∈ List.map fst ms.
Proof.
  induction ms as [|kv' ms IH]; simpl.
  - rewrite elem_of_cons. reflexivity.
  - destruct (String.leb (fst kv) (fst kv')); simpl.
    + rewrite !elem_of_cons. reflexivity.
    + rewrite !elem_of_cons, IH. tauto.
Qed.

Lemma keys_sortMembers ms k :
  k ∈ List.map fst (sortMembers ms) <-> k ∈ List.map fst ms.
Proof.
  induction ms as [|kv ms IH]; simpl; [reflexivity|].
  rewrite keys_insertSorted, elem_of_cons, IH. reflexivity.
Qed.

Lemma hasKey_marshalBody k (body : gmap string BodyValue) :
  hasKey k (marshalBody body) = true <-> is_Some (body !! k).
Proof.
  unfold hasKey, marshalBody, keys.
  rewrite bool_decide_eq_true, keys_sortMembers.
  rewrite List.map_map; simpl.
  change (List.map (fun x : string * BodyValue => x.1) (map_to_list body))
    with ((map_to_list body).*1).
  rewrite <- elem_of_dom. split.
  - intros [[k' v] [-> Hin]]%list_elem_of_fmap.
    apply elem_of_map_to_list in Hin. apply elem_of_dom. eauto.
  - intros [v Hv]%elem_of_dom. apply list_elem_of_fmap.
    exists (k, v). split; [reflexivity|]. now apply elem_of_map_to_list.
Qed.

(** ** The query body (C1) *)

Ltac body_lookup :=
  unfold buildQueryBody;
  match goal with
  | |- context [negb ?b] => destruct b; simpl negb; cbv beta iota
  end;
  repeat match goal with
         | |- context [if ?b then _ else _] => destruct b
         | |- context [match ?o with Some _ => _ | None => _ end] => destruct o
         end;
  simplify_map_eq; try reflexivity.

Lemma buildQueryBody_columns qb :
  buildQueryBody qb !! "columns" =
  match columns qb with [] => None | _ => Some (BStrings (columns qb)) end.
Proof.
  unfold buildQueryBody.
  destruct (columns qb) as [|c cs] eqn:Hc; simpl length;
    [change (Z.ltb 0 (Z.of_nat 0)) with false
    |replace (Z.ltb 0 (Z.of_nat (S (length cs)))) with true
       by (symmetry; apply Z.ltb_lt; lia)];
    repeat match goal with
           | |- context [if ?b then _ else _] => destruct b
           | |- context [match ?o with Some _ => _ | None => _ end] => destruct o
           end; simplify_map_eq; reflexivity.
Qed.

Lemma buildQueryBody_filters qb :
  buildQueryBody qb !! "filters" =
  match filters qb with [] => None | _ => Some (BFilters (filters qb)) end.
Proof.
  unfold buildQueryBody.
  destruct (filters qb) as [|c cs] eqn:Hc; simpl length;
    [change (Z.ltb 0 (Z.of_nat 0)) with false
    |replace (Z.ltb 0 (Z.of_nat (S (length cs)))) with true
       by (symmetry; apply Z.ltb_lt; lia)];
    repeat match goal with
           | |- context [if ?b then _ else _] => destruct b
           | |- context [match ?o with Some _ => _ | None => _ end] => destruct o
           end; simplify_map_eq; reflexivity.
Qed.

Lemma buildQueryBody_order_by qb :
  buildQueryBody qb !! "order_by" =
  if String.eqb (orderColumn qb) "" then None
  else Some (BString (orderColumn qb)).
Proof. body_lookup. Qed.

Lemma buildQueryBody_order_direction qb :
  buildQueryBody qb !! "order_direction" =
  if String.eqb (orderColumn qb) "" then None
  else Some (BString (orderDirection qb)).
Proof. body_lookup. Qed.

Lemma buildQueryBody_limit qb :
  buildQueryBody qb !! "limit" = BInt <$> limitValue qb.
Proof. body_lookup. Qed.

Lemma buildQueryBody_offset qb :
  buildQueryBody qb !! "offset" = BInt <$> offsetValue qb.
Proof. body_lookup. Qed.

Lemma buildQueryBody_dom qb k :
  is_Some (buildQueryBody qb !! k) ->
  k ∈ ["columns"; "filters"; "order_by"; "order_direction"; "limit"; "offset"].
Proof.
  rewrite <- elem_of_dom. unfold buildQueryBody.
  repeat match goal with
         | |- context [if ?b then _ else _] => destruct b
         | |- context [match ?o with Some _ => _ | None => _ end] => destruct o
         end;
    rewrite ?dom_insert_L, ?dom_empty_L; set_solver.
Qed.

Lemma member_filters_and_limit qb :
  member "filters" (marshalBody (buildQueryBody qb)) =
    match filters qb with
    | [] => None
    | fs => Some (JArray (List.map marshalFilter fs))
    end
  /\ member "limit" (marshalBody (buildQueryBody qb)) = JInt <$> limitValue qb.
Proof.
  rewrite !member_marshalBody, buildQueryBody_filters, buildQueryBody_limit.
  split; [now destruct (filters qb) | now destruct (limitValue qb)].
Qed.

(** [Execute] hands at most one request to the transport, the one built
    from the builder. *)
Lemma Execute_log rt qb log :
  (Execute rt qb log).1 = log \/ (Execute rt qb log).1 = log ++ [queryRequest qb].
Proof.
  unfold Execute, Transport.doRequest.
  change (mkRequest "POST" _ _ _) with (queryRequest qb).
  destruct (urlError rt _); [left; reflexivity|]. right.
  destruct (backend rt log (queryRequest qb)) as [c|st c|st b]; try reflexivity.
  destruct (failedStatus st); [reflexivity|].
  destruct (b ≫= decodeQueryResponse rt); reflexivity.
Qed.

(** C1. The body that [Execute]/[Get] serialize holds a key exactly when the
    matching builder state is not the default one: [columns] and [filters]
    only for a non-empty list, [order_by] and [order_direction] only for a
    non-empty order column, [limit] and [offset] only when set.  No other
    key occurs, no value is [null] or [[]], and a builder without filters,
    order, limit and offset serializes none of those five keys.  The request
    of [Execute], and of [Get], carries exactly this body. *)
Theorem buildQueryBody_omits_defaults (qb : QueryBuilder) :
  let j := marshalBody (buildQueryBody qb) in
  member "columns" j =
    match columns qb with
    | [] => None
    | cs => Some (JArray (List.map JString cs))
    end
  /\ member "filters" j =
    match filters qb with
    | [] => None
    | fs => Some (JArray (List.map marshalFilter fs))
    end
  /\ member "order_by" j =
    (if String.eqb (orderColumn qb) "" then None
     else Some (JString (orderColumn qb)))
  /\ member "order_direction" j =
    (if String.eqb (orderColumn qb) "" then None
     else Some (JString (orderDirection qb)))
  /\ member "limit" j = JInt <$> limitValue qb
  /\ member "offset" j = JInt <$> offsetValue qb
  /\ (forall k, hasKey k j = true ->
        k ∈ ["columns"; "filters"; "order_by"; "order_direction"; "limit"; "offset"])
  /\ (forall k v, member k j = Some v -> v <> JNull /\ v <> JArray [])
  /\ (filters qb = [] /\ orderColumn qb = "" /\
      limitValue qb = None /\ offsetValue qb = None ->
      forall k, k ∈ ["filters"; "order_by"; "order_direction"; "limit"; "offset"] ->
                hasKey k j = false /\ member k j = None)
  /\ (forall rt log,
        Get rt qb log = Execute rt qb log
        /\ reqBody (queryRequest qb) = JsonBody j
        /\ ((Execute rt qb log).1 = log
            \/ (Execute rt qb log).1 = log ++ [queryRequest qb])).
Proof.
  intros j. subst j.
  assert (Hc := buildQueryBody_columns qb).
  assert (Hf := buildQueryBody_filters qb).
  assert (Hb := buildQueryBody_order_by qb).
  assert (Hd := buildQueryBody_order_direction qb).
  assert (Hl := buildQueryBody_limit qb).
  assert (Ho := buildQueryBody_offset qb).
  assert (Hnn : forall k v,
             member k (marshalBody (buildQueryBody qb)) = Some v ->
             v <> JNull /\ v <> JArray []).
  { intros k v. rewrite member_marshalBody.
    destruct (buildQueryBody qb !! k) as [bv|] eqn:Hk; [|discriminate].
    assert (Hin := buildQueryBody_dom qb k (ex_intro _ bv Hk)).
    destruct (limitValue qb), (offsetValue qb); simpl in Hl, Ho.
    all: repeat (apply elem_of_cons in Hin as [->|Hin]);
      try (now apply elem_of_nil in Hin).
    all: rewrite ?Hc, ?Hf, ?Hb, ?Hd, ?Hl, ?Ho in Hk.
    all: repeat match type of Hk with
                | context [match ?x with _ => _ end] =>
                    destruct x; try discriminate
                end.
    all: simplify_eq/=; intros [= <-]; split; discriminate. }
  split; [rewrite member_marshalBody, Hc; now destruct (columns qb)|].
  split; [rewrite member_marshalBody, Hf; now destruct (filters qb)|].
  split; [rewrite member_marshalBody, Hb; now destruct (String.eqb _ _)|].
  split; [rewrite member_marshalBody, Hd; now destruct (String.eqb _ _)|].
  split; [rewrite member_marshalBody, Hl; now destruct (limitValue qb)|].
  split; [rewrite member_marshalBody, Ho; now destruct (offsetValue qb)|].
  split.
  { intros k Hk. apply hasKey_marshalBody in Hk.
    now apply (buildQueryBody_dom qb). }
  split; [exact Hnn|].
  split; [|intros rt log; split; [reflexivity|split; [reflexivity|apply Execute_log]]].
  intros (Hf0 & Hb0 & Hl0 & Ho0) k Hin.
  rewrite Hf0 in Hf. rewrite Hb0 in Hb, Hd. rewrite Hl0 in Hl. rewrite Ho0 in Ho.
  simpl in Hf, Hb, Hd, Hl, Ho.
  assert (Hnone : buildQueryBody qb !! k = None).
  { repeat (apply elem_of_cons in Hin as [->|Hin]); try assumption.
    now apply elem_of_nil in Hin. }
  split.
  - destruct (hasKey k (marshalBody (buildQueryBody qb))) eqn:Hk; [|reflexivity].
    apply hasKey_marshalBody in Hk. destruct Hk as [bv Hk]. congruence.
  - rewrite member_marshalBody, Hnone. reflexivity.
Qed.

(** ** Filter chains (C2, C3, C10) *)

Lemma call_appends c qb :
  filters (call c qb) = filters qb ++ [expectedEntry c].
Proof. destruct c; reflexivity. Qed.

Lemma call_preserves c qb :
  client (call c qb) = client qb /\ tableName (call c qb) = tableName qb /\
  columns (call c qb) = columns qb /\ orderColumn (call c qb) = orderColumn qb /\
  orderDirection (call c qb) = orderDirection qb /\
  limitValue (call c qb) = limitValue qb /\ offsetValue (call c qb) = offsetValue qb.
Proof. destruct c; repeat split. Qed.




(** C10, as the code has it. For every column, each of [Eq], [Neq], [Gt],
    [Gte], [Lt], [Lte] called with a nil value appends an entry that
    serializes to [{column, operator}] with no [value] key, the shape of an
    is-null entry; [Like] takes a string pattern and its entry always
    serializes a [value] key, the empty pattern included. *)
Theorem nil_value_dropped_except_like (column : string) (qb : QueryBuilder) :
  Forall (fun mo =>
            filters (fst mo column GNil qb)
            = filters qb ++ [mkFilter column (snd mo) GNil]
            /\ snd mo ∈ valueCarrying
            /\ marshalFilter (mkFilter column (snd mo) GNil)
               = JObject [("column", JString column);
                          ("operator", JString (snd mo))]
            /\ hasKey "value" (marshalFilter (mkFilter column (snd mo) GNil)) = false
            /\ keys (marshalFilter (mkFilter column (snd mo) GNil))
               = keys (marshalFilter (mkFilter column OpIsNull GNil)))
         valueMutators
  /\ (forall pattern,
        filters (Like column pattern qb)
        = filters qb ++ [mkFilter column OpLike (GString pattern)]
        /\ member "value" (marshalFilter (mkFilter column OpLike (GString pattern)))
           = Some (JString pattern)).
Proof.
  split.
  - unfold valueMutators, valueCarrying.
    repeat constructor; simpl; set_solver.
  - intros pattern. split; reflexivity.
Qed.

(** C10 as stated fails at the operator [like]: no call of the public
    mutators records a [like] entry that serializes without a [value] key. *)
Lemma like_value_always_serialized :
  OpLike ∈ valueCarrying
  /\ ~ (exists (c : FilterCall) (qb : QueryBuilder) (f : FilterExpression),
         filters (call c qb) = filters qb ++ [f]
         /\ Operator f = OpLike
         /\ hasKey "value" (marshalFilter f) = false).
Proof.
  split; [unfold valueCarrying; set_solver|].
  intros (c & qb & f & Hf & Hop & Hk).
  rewrite call_appends in Hf. apply app_inv_head in Hf.
  injection Hf as <-.
  destruct c; simpl in Hop; try discriminate Hop.
  vm_compute in Hk. discriminate Hk.
Qed.

(** ** First (C4) *)

Lemma Execute_success rt qb log status body result :
  urlError rt (reqURL (queryRequest qb)) = false ->
  backend rt log (queryRequest qb) = Responds status (Some body) ->
  failedStatus status = false ->
  decodeQueryResponse rt body = Some result ->
  Execute rt qb log = (log ++ [queryRequest qb], Ok result).
Proof.
  intros Hurl Hresp Hok Hdec.
  unfold Execute, Transport.doRequest.
  change (projectURL (client qb) +:+ "/api/v1/tables/" +:+ tableName qb +:+ "/query")
    with (reqURL (queryRequest qb)).
  rewrite Hurl.
  change (mkRequest "POST" (reqURL (queryRequest qb)) _ _) with (queryRequest qb).
  rewrite Hresp, Hok. simpl. rewrite Hdec. reflexivity.
Qed.

Lemma First_sets_limit rt qb log :
  (First rt qb log).1.1 = Limit 1 qb.
Proof.
  unfold First. destruct (Execute rt (Limit 1 qb) log) as [log1 [result|e]];
    [destruct (Data result)|]; reflexivity.
Qed.

(** C4. [First] sets the limit of the builder to 1 and executes that builder:
    the request sent carries [limit: 1].  When the query succeeds (a 2xx
    answer that decodes), it returns the first row of the result set, and
    for an empty result set it returns [(nil, nil)]: no row, no error. *)
Theorem First_limit_one_first_row_or_no_rows
    (rt : Runtime) (qb : QueryBuilder) (log : list HttpRequest)
    (status : Z) (body : JSON) (result : QueryResponse)
    (Hurl : urlError rt (reqURL (queryRequest (Limit 1 qb))) = false)
    (Hresp : backend rt log (queryRequest (Limit 1 qb)) = Responds status (Some body))
    (Hok : failedStatus status = false)
    (Hdec : decodeQueryResponse rt body = Some result) :
  (First rt qb log).1.1 = Limit 1 qb
  /\ limitValue (First rt qb log).1.1 = Some 1
  /\ (First rt qb log).1.2 = log ++ [queryRequest (Limit 1 qb)]
  /\ member "limit" (jsonOf (reqBody (queryRequest (Limit 1 qb)))) = Some (JInt 1)
  /\ (First rt qb log).2 = Ok (match Data result with
                               | [] => None
                               | row :: _ => row
                               end)
  /\ (Data result = [] -> (First rt qb log).2 = Ok None)
  /\ (forall row rest, Data result = row :: rest -> (First rt qb log).2 = Ok row).
Proof.
  assert (HE := Execute_success rt (Limit 1 qb) log status body result
                  Hurl Hresp Hok Hdec).
  assert (HF : First rt qb log
               = (Limit 1 qb, log ++ [queryRequest (Limit 1 qb)],
                  Ok (match Data result with [] => None | row :: _ => row end))).
  { unfold First. rewrite HE. now destruct (Data result). }
  rewrite HF. simpl.
  split; [reflexivity|]. split; [reflexivity|]. split; [reflexivity|].
  split.
  { destruct (member_filters_and_limit (Limit 1 qb)) as [_ H].
    exact H. }
  split; [reflexivity|].
  split; [intros ->; reflexivity | intros row rest ->; reflexivity].
Qed.

(** C4 on a backend that answers 200: an empty result set, then one whose
    first row is [sampleRow]. *)
Lemma First_limit_one_witness :
  (First (sampleRuntime (always 200 (JObject [])) [] sampleQuotaFields)
         sampleBuilder []).2 = Ok None
  /\ (First (sampleRuntime (always 200 (JObject [])) [sampleRow; None] sampleQuotaFields)
            sampleBuilder []).2 = Ok sampleRow.
Proof.
  split.
  - exact (proj1 (proj2 (proj2 (proj2 (proj2
      (First_limit_one_first_row_or_no_rows
         (sampleRuntime (always 200 (JObject [])) [] sampleQuotaFields)
         sampleBuilder [] 200 (JObject [])
         (mkQueryResponse [] 0 None None)
         eq_refl eq_refl eq_refl eq_refl)))))).
  - exact (proj1 (proj2 (proj2 (proj2 (proj2
      (First_limit_one_first_row_or_no_rows
         (sampleRuntime (always 200 (JObject [])) [sampleRow; None] sampleQuotaFields)
         sampleBuilder [] 200 (JObject [])
         (mkQueryResponse [sampleRow; None] 2 None None)
         eq_refl eq_refl eq_refl eq_refl)))))).
Defined.

(** ** The data API classifier (C5) *)

Lemma extractMessage_cases statusCode (m : gmap string JSON) :
  (forall msg, stringField m "error" = Some msg -> msg <> "Request failed" ->
               extractMessage statusCode m = msg)
  /\ (forall msg, stringField m "error" = None ->
                  stringField m "message" = Some msg -> msg <> "Request failed" ->
                  extractMessage statusCode m = msg)
  /\ (forall msg, stringField m "error" = None -> stringField m "message" = None ->
                  stringField m "detail" = Some msg -> msg <> "Request failed" ->
                  extractMessage statusCode m = msg)
  /\ (stringField m "error" = None -> stringField m "message" = None ->
      stringField m "detail" = None ->
      extractMessage statusCode m = "Request failed with status " +:+ itoa statusCode).
Proof.
  unfold extractMessage.
  repeat split.
  - intros msg -> Hne. now apply String.eqb_neq in Hne as ->.
  - intros msg -> -> Hne. now apply String.eqb_neq in Hne as ->.
  - intros msg -> -> -> Hne. now apply String.eqb_neq in Hne as ->.
  - intros -> -> ->. reflexivity.
Qed.

Lemma parseError_message statusCode body :
  messageOf (parseError statusCode body)
  = extractMessage statusCode (unmarshalMap body).
Proof.
  unfold parseError.
  destruct (Z.eqb statusCode 401 || Z.eqb statusCode 403);
    [reflexivity|].
  destruct (Z.eqb statusCode 404); [reflexivity|].
  destruct (Z.eqb statusCode 429); reflexivity.
Qed.

(** C5, as the code has it. [parseError] returns an [AuthenticationError]
    exactly for status 401 or 403, a [NotFoundError] exactly for 404, a
    [RateLimitError] exactly for 429 and the generic [WowMySQLError] for every
    other status.  The message is the first of the body's [error],
    [message], [detail] fields that holds a string, when that string is not
    the literal "Request failed"; when none of the three holds a string it
    is "Request failed with status N". *)
Theorem parseError_classifies_status_and_message
    (statusCode : Z) (body : option JSON) :
  (kindOf (parseError statusCode body) = AuthenticationKind
     <-> statusCode = 401 \/ statusCode = 403)
  /\ (kindOf (parseError statusCode body) = NotFoundKind <-> statusCode = 404)
  /\ (kindOf (parseError statusCode body) = RateLimitKind <-> statusCode = 429)
  /\ (kindOf (parseError statusCode body) = GenericKind
        <-> statusCode <> 401 /\ statusCode <> 403 /\
            statusCode <> 404 /\ statusCode <> 429)
  /\ (forall msg, stringField (unmarshalMap body) "error" = Some msg ->
                  msg <> "Request failed" ->
                  messageOf (parseError statusCode body) = msg)
  /\ (forall msg, stringField (unmarshalMap body) "error" = None ->
                  stringField (unmarshalMap body) "message" = Some msg ->
                  msg <> "Request failed" ->
                  messageOf (parseError statusCode body) = msg)
  /\ (forall msg, stringField (unmarshalMap body) "error" = None ->
                  stringField (unmarshalMap body) "message" = None ->
                  stringField (unmarshalMap body) "detail" = Some msg ->
                  msg <> "Request failed" ->
                  messageOf (parseError statusCode body) = msg)
  /\ (stringField (unmarshalMap body) "error" = None ->
      stringField (unmarshalMap body) "message" = None ->
      stringField (unmarshalMap body) "detail" = None ->
      messageOf (parseError statusCode body)
      = "Request failed with status " +:+ itoa statusCode).
Proof.
  rewrite parseError_message.
  destruct (extractMessage_cases statusCode (unmarshalMap body))
    as (He & Hm & Hd & Hn).
  assert (Hkind :
    (kindOf (parseError statusCode body) = AuthenticationKind
       <-> statusCode = 401 \/ statusCode = 403)
    /\ (kindOf (parseError statusCode body) = NotFoundKind <-> statusCode = 404)
    /\ (kindOf (parseError statusCode body) = RateLimitKind <-> statusCode = 429)
    /\ (kindOf (parseError statusCode body) = GenericKind
          <-> statusCode <> 401 /\ statusCode <> 403 /\
              statusCode <> 404 /\ statusCode <> 429)).
  { unfold parseError.
    destruct (Z.eqb_spec statusCode 401) as [->|H401]; simpl;
      [repeat split; try discriminate; intros; lia|].
    destruct (Z.eqb_spec statusCode 403) as [->|H403]; simpl;
      [repeat split; try discriminate; intros; lia|].
    destruct (Z.eqb_spec statusCode 404) as [->|H404]; simpl;
      [repeat split; try discriminate; intros; lia|].
    destruct (Z.eqb_spec statusCode 429) as [->|H429]; simpl;
      repeat split; try discriminate; intros; lia. }
  destruct Hkind as (K1 & K2 & K3 & K4).
  repeat (split; [assumption|]). assumption.
Qed.

(** C5 as stated fails on the message: with no field present the text is
    "Request failed with status 500", capitalised; and a body whose [error]
    field is the string "Request failed" does not get that string as its
    message. *)
Lemma parseError_message_not_as_stated :
  unmarshalMap (Some (JObject [])) = ∅
  /\ messageOf (parseError 500 (Some (JObject [])))
     = "Request failed with status 500"
  /\ messageOf (parseError 500 (Some (JObject [])))
     <> "request failed with status 500"
  /\ stringField (unmarshalMap (Some (JObject [("error", JString "Request failed")])))
                 "error" = Some "Request failed"
  /\ messageOf (parseError 500 (Some (JObject [("error", JString "Request failed")])))
     <> "Request failed".
Proof.
  split; [reflexivity|]. split; [reflexivity|].
  split; [vm_compute; discriminate|].
  split; [reflexivity|]. vm_compute; discriminate.
Qed.

(** ** Storage upload (C6, C7) *)

Lemma parseStorageError_cases statusCode body :
  (statusCode = 413 ->
   parseStorageError statusCode body
   = ErrStorageLimitExceeded
       (mkStorageLimitExceededError
          (extractMessage 413 (unmarshalMap body)) 0 0 413 (unmarshalMap body)))
  /\ (statusCode <> 413 ->
      parseStorageError statusCode body
      = ErrStorage
          (mkStorageError (extractMessage statusCode (unmarshalMap body))
                          statusCode (unmarshalMap body) None)).
Proof.
  unfold parseStorageError. split.
  - intros ->. reflexivity.
  - intros Hne. apply Z.eqb_neq in Hne. now rewrite Hne.
Qed.

Lemma Storage_doRequest_log rt s method path body log :
  let req := mkRequest method (sProjectURL s +:+ path)
               [("Content-Type", "application/json");
                ("Accept", "application/json");
                ("Authorization", "Bearer " +:+ sApiKey s)]
               match body with
               | Some m => JsonBody (marshalBody m)
               | None => NoBody
               end in
  (Storage.doRequest rt s method path body log).1 = log
  \/ (Storage.doRequest rt s method path body log).1 = log ++ [req].
Proof.
  intros req. unfold Storage.doRequest. fold req.
  destruct (urlError rt _); [left; reflexivity|].
  right. destruct (backend rt log req) as [c|st c|st b]; try reflexivity.
  destruct (failedStatus st); reflexivity.
Qed.

Lemma GetQuota_log rt s log log1 quota :
  GetQuota rt s log = (log1, Ok quota) -> log1 = log ++ [quotaRequest s].
Proof.
  unfold GetQuota, Storage.doRequest.
  change (mkRequest "GET" _ _ NoBody) with (quotaRequest s).
  destruct (urlError rt _); [discriminate|].
  destruct (backend rt log (quotaRequest s)) as [c|st c|st b]; try discriminate.
  destruct (failedStatus st); [discriminate|].
  destruct (b ≫= _); intros [= <- _]; reflexivity.
Qed.

(** [Upload] once the quota guard has let the payload through, with or
    without a quota request before. *)
Lemma Upload_after_guard rt s fileData key contentType checkQuota log log1 :
  (match checkQuota with Some b => b | None => autoCheckQuota s end = false
   /\ log1 = log)
  \/ (match checkQuota with Some b => b | None => autoCheckQuota s end = true
      /\ exists quota, GetQuota rt s log = (log1, Ok quota)
                       /\ Z.of_nat (length fileData) <= StorageAvailableBytes quota) ->
  Upload rt s fileData key contentType checkQuota log
  = let req := uploadRequest rt s fileData key contentType in
    if urlError rt (reqURL req)
    then (log1, Err (ErrWrapped "failed to create request" (reqURL req)))
    else
      match backend rt log1 req with
      | DoFails cause =>
          (log1 ++ [req], Err (ErrStorage (mkStorageError "" 0 ∅ (Some cause))))
      | ReadFails _ cause =>
          (log1 ++ [req], Err (ErrWrapped "failed to read response body" cause))
      | Responds status respBody =>
          if failedStatus status
          then (log1 ++ [req], Err (parseStorageError status respBody))
          else
            match respBody ≫= decodeFileUploadResult rt with
            | None => (log1 ++ [req], Err (ErrWrapped "failed to parse response" ""))
            | Some res => (log1 ++ [req], Ok res)
            end
      end.
Proof.
  intros [[Hc ->]|[Hc (quota & Hq & Hle)]]; unfold Upload; rewrite Hc.
  - reflexivity.
  - rewrite Hq. apply Z.ltb_ge in Hle. rewrite Hle. reflexivity.
Qed.

(** C6, as the code has it. When the upload request is answered with a
    non-2xx status, [Upload] returns [parseStorageError] of the answer: for
    413 a [StorageLimitExceededError] with the status, the extracted message
    and both byte counts left at zero, for every other status a
    [StorageError]. *)
Theorem Upload_failed_status_error
    (rt : Runtime) (s : StorageClient) (fileData : list byte)
    (key contentType : string) (checkQuota : option bool)
    (log log1 : list HttpRequest) (status : Z) (body : option JSON)
    (Hguard :
       (match checkQuota with Some b => b | None => autoCheckQuota s end = false
        /\ log1 = log)
       \/ (match checkQuota with Some b => b | None => autoCheckQuota s end = true
           /\ exists quota, GetQuota rt s log = (log1, Ok quota)
                            /\ Z.of_nat (length fileData)
                               <= StorageAvailableBytes quota))
    (Hurl : urlError rt (reqURL (uploadRequest rt s fileData key contentType)) = false)
    (Hresp : backend rt log1 (uploadRequest rt s fileData key contentType)
             = Responds status body)
    (Hfail : failedStatus status = true) :
  Upload rt s fileData key contentType checkQuota log
  = (log1 ++ [uploadRequest rt s fileData key contentType],
     Err (parseStorageError status body))
  /\ (status = 413 ->
      parseStorageError status body
      = ErrStorageLimitExceeded
          (mkStorageLimitExceededError
             (extractMessage 413 (unmarshalMap body)) 0 0 413 (unmarshalMap body)))
  /\ (status <> 413 ->
      parseStorageError status body
      = ErrStorage
          (mkStorageError (extractMessage status (unmarshalMap body))
                          status (unmarshalMap body) None)).
Proof.
  split.
  - rewrite (Upload_after_guard rt s fileData key contentType checkQuota log log1 Hguard).
    cbv zeta. rewrite Hurl, Hresp, Hfail. reflexivity.
  - apply parseStorageError_cases.
Qed.

(** C6 on a backend that serves a quota of 7.5 GB and answers the upload
    with 413, the quota check at its default. *)
Lemma Upload_failed_status_witness :
  Upload (sampleRuntime (quotaThenStatus 413) [] sampleQuotaFields)
         sampleStorage fiveBytes "uploads/a.txt" "text/plain" None []
  = ([quotaRequest sampleStorage]
     ++ [uploadRequest (sampleRuntime (quotaThenStatus 413) [] sampleQuotaFields)
           sampleStorage fiveBytes "uploads/a.txt" "text/plain"],
     Err (parseStorageError 413 (Some (JObject [("error", JString "too large")])))).
Proof.
  refine (proj1 (Upload_failed_status_error
                  (sampleRuntime (quotaThenStatus 413) [] sampleQuotaFields)
                  sampleStorage fiveBytes "uploads/a.txt" "text/plain" None
                  [] [quotaRequest sampleStorage]
                  413 (Some (JObject [("error", JString "too large")]))
                  (or_intror (conj eq_refl
                     (ex_intro _
                        (mkStorageQuota 10%float 2.5%float 0%float 7.5%float
                           25%float false false "pro"
                           10737418240 2684354560 8053063680)
                        (conj eq_refl _))))
                  eq_refl eq_refl eq_refl)).
  simpl. lia.
Defined.

(** C6 as stated fails: a five-byte upload answered with 413, with the quota
    check at its default and 7.5 GB available, gives a
    [StorageLimitExceededError] whose [RequiredBytes] is 0, not 5. *)
Lemma Upload_413_required_bytes_zero :
  exists e,
    (Upload (sampleRuntime (quotaThenStatus 413) [] sampleQuotaFields)
            sampleStorage fiveBytes "uploads/a.txt" "text/plain" None []).2
    = Err (ErrStorageLimitExceeded e)
    /\ LStatusCode e = 413
    /\ RequiredBytes e = 0
    /\ RequiredBytes e <> Z.of_nat (length fiveBytes).
Proof.
  eexists. split; [vm_compute; reflexivity|].
  split; [reflexivity|]. split; [reflexivity|]. discriminate.
Qed.

(** C7. With the quota check on (the per-call flag, or the client's setting
    when the flag is nil; [NewStorageClient] sets it), a fetched quota whose
    available bytes are fewer than the payload makes [Upload] fail with a
    [StorageLimitExceededError] that carries the payload length and the
    fetched available bytes.  The only request made is the quota one: the
    upload request is never handed to the transport. *)
Theorem Upload_quota_guard_fails_fast
    (rt : Runtime) (s : StorageClient) (fileData : list byte)
    (key contentType : string) (checkQuota : option bool)
    (log log1 : list HttpRequest) (quota : StorageQuota)
    (Hcheck : match checkQuota with
              | Some b => b
              | None => autoCheckQuota s
              end = true)
    (Hquota : GetQuota rt s log = (log1, Ok quota))
    (Hlow : StorageAvailableBytes quota < Z.of_nat (length fileData)) :
  (exists msg,
     Upload rt s fileData key contentType checkQuota log
     = (log1,
        Err (ErrStorageLimitExceeded
               (mkStorageLimitExceededError msg
                  (Z.of_nat (length fileData))
                  (StorageAvailableBytes quota) 0 ∅))))
  /\ (Upload rt s fileData key contentType checkQuota log).1
     = log ++ [quotaRequest s]
  /\ reqMethod (quotaRequest s) = "GET"
  /\ quotaRequest s <> uploadRequest rt s fileData key contentType
  /\ (forall u k, autoCheckQuota (NewStorageClient u k) = true).
Proof.
  assert (Hlog := GetQuota_log rt s log log1 quota Hquota).
  assert (HU : exists msg,
     Upload rt s fileData key contentType checkQuota log
     = (log1,
        Err (ErrStorageLimitExceeded
               (mkStorageLimitExceededError msg
                  (Z.of_nat (length fileData))
                  (StorageAvailableBytes quota) 0 ∅)))).
  { unfold Upload. rewrite Hcheck, Hquota.
    apply Z.ltb_lt in Hlow. rewrite Hlow. eexists. reflexivity. }
  split; [exact HU|].
  destruct HU as [msg HU]. rewrite HU. simpl.
  split; [exact Hlog|]. split; [reflexivity|].
  split; [discriminate | reflexivity].
Qed.

(** C7 on a quota of 2^-30 GB, one byte, against a five-byte payload. *)
Lemma Upload_quota_guard_witness :
  (Upload (sampleRuntime (quotaThenStatus 200) [] tinyQuotaFields)
          sampleStorage fiveBytes "uploads/a.txt" "text/plain" None []).1
  = [quotaRequest sampleStorage].
Proof.
  exact (proj1 (proj2
    (Upload_quota_guard_fails_fast
       (sampleRuntime (quotaThenStatus 200) [] tinyQuotaFields)
       sampleStorage fiveBytes "uploads/a.txt" "text/plain" None
       [] [quotaRequest sampleStorage]
       (mkStorageQuota 1%float 1%float 0%float 0x1p-30%float 100%float
          false false "free" 1073741824 1073741824 1)
       eq_refl eq_refl eq_refl))).
Defined.

(** ** Auth base URL (C9) *)

Lemma append_cons a (s t : string) : String a s +:+ t = String a (s +:+ t).
Proof. reflexivity. Qed.

Lemma append_assoc (s t u : string) : (s +:+ t) +:+ u = s +:+ (t +:+ u).
Proof.
  induction s as [|a s IH]; [reflexivity|].
  rewrite !append_cons, IH. reflexivity.
Qed.

Lemma append_empty (s : string) : s +:+ "" = s.
Proof.
  induction s as [|a s IH]; [reflexivity|].
  rewrite append_cons, IH. reflexivity.
Qed.

Lemma rev_app_append s : forall acc, String.rev_app s acc = String.rev s +:+ acc.
Proof.
  unfold String.rev.
  induction s as [|a s IH]; intros acc; [reflexivity|].
  change (String.rev_app (String a s) acc) with (String.rev_app s (String a acc)).
  change (String.rev_app (String a s) "") with (String.rev_app s (String a "")).
  rewrite IH, (IH (String a "")), append_assoc. reflexivity.
Qed.

Lemma rev_append s t : String.rev (s +:+ t) = String.rev t +:+ String.rev s.
Proof.
  unfold String.rev at 1.
  assert (H : forall acc, String.rev_app (s +:+ t) acc
                          = String.rev_app t (String.rev_app s acc)).
  { induction s as [|a s IH]; intros acc; [reflexivity|].
    rewrite append_cons. apply IH. }
  rewrite H, rev_app_append. reflexivity.
Qed.

Lemma prefix_append p s : String.prefix p (p +:+ s) = true.
Proof.
  induction p as [|a p IH]; [now destruct s|].
  rewrite append_cons. simpl.
  destruct (ascii_dec a a); [exact IH|congruence].
Qed.

Lemma prefix_weaken p s t :
  String.prefix p s = true -> String.prefix p (s +:+ t) = true.
Proof.
  revert s. induction p as [|a p IH]; intros s; [now destruct (s +:+ t)|].
  destruct s as [|b s]; [discriminate|].
  rewrite append_cons. simpl.
  destruct (ascii_dec a b); [apply IH|discriminate].
Qed.

Lemma length_append s t :
  String.length (s +:+ t) = (String.length s + String.length t)%nat.
Proof.
  induction s as [|a s IH]; [reflexivity|].
  rewrite append_cons. simpl. now rewrite IH.
Qed.

Lemma substring_append s t :
  substring 0 (String.length s) (s +:+ t) = s.
Proof.
  induction s as [|a s IH].
  - simpl. now destruct t.
  - rewrite append_cons. simpl. now rewrite IH.
Qed.

Lemma HasSuffix_append s suffix : HasSuffix (s +:+ suffix) suffix = true.
Proof. unfold HasSuffix. rewrite rev_append. apply prefix_append. Qed.

Lemma TrimSuffix_append s suffix : TrimSuffix (s +:+ suffix) suffix = s.
Proof.
  unfold TrimSuffix. rewrite HasSuffix_append, length_append.
  replace (String.length s + String.length suffix - String.length suffix)%nat
    with (String.length s) by lia.
  apply substring_append.
Qed.

Lemma TrimSuffix_absent s suffix :
  HasSuffix s suffix = false -> TrimSuffix s suffix = s.
Proof. unfold TrimSuffix. now intros ->. Qed.

(** The tail of [buildAuthBaseURL]: one trailing slash, then one trailing
    [/api], removed from a URL before [/api/auth] is appended. *)
Lemma normalize_tail base tail :
  tail ∈ [""; "/"; "/api"; "/api/"] ->
  HasSuffix base "/" = false -> HasSuffix base "/api" = false ->
  (let n := TrimSuffix (base +:+ tail) "/" in
   if HasSuffix n "/api" then TrimSuffix n "/api" else n) = base.
Proof.
  intros Hin Hs Ha.
  repeat (apply elem_of_cons in Hin as [->|Hin]); cbv zeta.
  - rewrite append_empty, (TrimSuffix_absent _ _ Hs), Ha. reflexivity.
  - rewrite TrimSuffix_append, Ha. reflexivity.
  - assert (Hno : HasSuffix (base +:+ "/api") "/" = false).
    { unfold HasSuffix. rewrite rev_append. reflexivity. }
    rewrite (TrimSuffix_absent _ _ Hno), HasSuffix_append.
    apply TrimSuffix_append.
  - change "/api/" with ("/api" +:+ "/").
    rewrite <- append_assoc, TrimSuffix_append, HasSuffix_append.
    apply TrimSuffix_append.
  - now apply elem_of_nil in Hin.
Qed.

(** C9, as the code has it. The slug "myproj" with the default base domain
    gives "https://myproj.wowmysql.com/api/auth" when [secure] is true and
    the same URL on [http] when it is false; the full URL
    "https://myproj.wowmysql.com/api/" gives the [https] URL whatever
    [secure] and the base domain are.  In general a full URL [base] followed
    by nothing, "/", "/api" or "/api/" is mapped to [base/api/auth]. *)
Theorem buildAuthBaseURL_normalizes :
  buildAuthBaseURL "myproj" "" true = "https://myproj.wowmysql.com/api/auth"
  /\ buildAuthBaseURL "myproj" "" false = "http://myproj.wowmysql.com/api/auth"
  /\ (forall baseDomain secure,
        buildAuthBaseURL "https://myproj.wowmysql.com/api/" baseDomain secure
        = "https://myproj.wowmysql.com/api/auth")
  /\ (forall base tail baseDomain secure,
        tail ∈ [""; "/"; "/api"; "/api/"] ->
        TrimSpace (base +:+ tail) = base +:+ tail ->
        HasPrefix base "http://" || HasPrefix base "https://" = true ->
        HasSuffix base "/" = false -> HasSuffix base "/api" = false ->
        buildAuthBaseURL (base +:+ tail) baseDomain secure = base +:+ "/api/auth").
Proof.
  split; [reflexivity|]. split; [reflexivity|]. split; [reflexivity|].
  intros base tail baseDomain secure Hin Htrim Hpre Hs Ha.
  unfold buildAuthBaseURL. rewrite Htrim.
  assert (Hp : HasPrefix (base +:+ tail) "http://"
               || HasPrefix (base +:+ tail) "https://" = true).
  { unfold HasPrefix in *. apply orb_true_iff in Hpre as [H|H];
      apply (prefix_weaken _ _ tail) in H; rewrite H;
      [reflexivity|apply orb_true_r]. }
  rewrite Hp.
  pose proof (normalize_tail base tail Hin Hs Ha) as Hn. cbv zeta in Hn.
  rewrite Hn. reflexivity.
Qed.

(** C9 as stated fails when [secure] is false, the zero value of
    [AuthConfig.Secure]: the slug is then put on [http]. *)
Lemma buildAuthBaseURL_slug_insecure :
  NewAuthClient_baseURL (mkAuthConfig "myproj" "" false)
  = "http://myproj.wowmysql.com/api/auth"
  /\ buildAuthBaseURL "myproj" "" false <> "https://myproj.wowmysql.com/api/auth".
Proof. split; [reflexivity|vm_compute; discriminate]. Qed.

(** ** Storage quota byte counts (C8) *)

Lemma iter_pos_iter {A} (f : A -> A) p :
  forall x, SpecFloat.iter_pos f p x = Pos.iter f x p.
Proof.
  induction p as [p IH|p IH|]; intros x; simpl.
  - rewrite !IH, !Pos.iter_swap. reflexivity.
  - rewrite !IH. reflexivity.
  - reflexivity.
Qed.

Lemma iter_pos_nat {A} (f : A -> A) p x :
  SpecFloat.iter_pos f p x = Nat.iter (Pos.to_nat p) f x.
Proof. rewrite iter_pos_iter, Pos2Nat.inj_iter. reflexivity. Qed.

Lemma shl_Z a n : Z.pos (shl a n) = Z.pos a * 2 ^ Z.of_nat n.
Proof.
  induction n as [|n IH].
  - simpl. lia.
  - change (shl a (S n)) with (xO (shl a n)).
    rewrite Pos2Z.inj_xO, IH, Nat2Z.inj_succ, Z.pow_succ_r by lia. lia.
Qed.

Lemma shl_digits a n :
  Z.pos (digits2_pos (shl a n)) = Z.pos (digits2_pos a) + Z.of_nat n.
Proof.
  induction n as [|n IH].
  - simpl. lia.
  - change (shl a (S n)) with (xO (shl a n)). simpl digits2_pos.
    rewrite Pos2Z.inj_succ, IH. lia.
Qed.

Lemma shr_shl n : forall k a,
  Nat.iter n shr_1 {| shr_m := Z.pos (shl a (n + k)); shr_r := false; shr_s := false |}
  = {| shr_m := Z.pos (shl a k); shr_r := false; shr_s := false |}.
Proof.
  induction n as [|n IH]; intros k a.
  - reflexivity.
  - change (Nat.iter (S n) shr_1 ?x) with (shr_1 (Nat.iter n shr_1 x)).
    replace (S n + k)%nat with (n + S k)%nat by lia.
    rewrite IH. reflexivity.
Qed.

Lemma mul_2_52 m : (m * 4503599627370496)%positive = shl m 52.
Proof.
  apply Pos2Z.inj. rewrite Pos2Z.inj_mul, shl_Z. reflexivity.
Qed.

Lemma binary_round_aux_exact s m e :
  bounded prec emax m e = true ->
  binary_round_aux prec emax s (Z.pos (m * 4503599627370496)) (e + -42) loc_Exact
  = if Z.max (Z.pos (digits2_pos m) + e - 43) (-1074) <=? 971
    then S754_finite s
           (shl m (Z.to_nat (e + 10 - Z.max (Z.pos (digits2_pos m) + e - 43) (-1074))))
           (Z.max (Z.pos (digits2_pos m) + e - 43) (-1074))
    else S754_infinity s.
Proof.
  intros Hb. unfold bounded, canonical_mantissa in Hb.
  apply andb_true_iff in Hb as [Hc He].
  apply Z.eqb_eq in Hc. apply Z.leb_le in He.
  unfold fexp, SpecFloat.emin in Hc.
  change prec with 53 in *. change emax with 1024 in *.
  set (D := Z.pos (digits2_pos m)) in *.
  set (F := Z.max (D + e - 43) (-1074)).
  assert (HD : 1 <= D) by (unfold D; lia).
  assert (Hn1 : 42 <= F - (e + -42) <= 52) by (unfold F; lia).
  set (n1 := Z.to_nat (F - (e + -42))).
  set (d := Z.to_nat (e + 10 - F)).
  assert (Hsum : (52 = n1 + d)%nat) by (unfold n1, d; lia).
  rewrite mul_2_52.
  unfold binary_round_aux, shr_fexp.
  unfold Zdigits2 at 1. rewrite shl_digits. fold D.
  unfold fexp, SpecFloat.emin.
  change prec with 53. change emax with 1024.
  replace (Z.max (D + Z.of_nat 52 + (e + -42) - 53) (3 - 1024 - 53)) with F
    by (unfold F; lia).
  assert (Hshr : shr (shr_record_of_loc (Z.pos (shl m 52)) loc_Exact)
                    (e + -42) (F - (e + -42))
                = ({| shr_m := Z.pos (shl m d); shr_r := false; shr_s := false |}, F)).
  { destruct (F - (e + -42)) as [|p|p] eqn:Hp; try lia.
    unfold shr. rewrite iter_pos_nat.
    replace (Pos.to_nat p) with n1 by (unfold n1; lia).
    rewrite Hsum. unfold shr_record_of_loc. rewrite shr_shl.
    f_equal. lia. }
  rewrite Hshr. cbv beta iota.
  change (loc_of_shr_record {| shr_m := Z.pos (shl m d); shr_r := false; shr_s := false |})
    with loc_Exact.
  unfold round_nearest_even, shr_m at 1 2.
  unfold Zdigits2. rewrite shl_digits. fold D.
  replace ((D + Z.of_nat d + F - 53) `max` (3 - 1024 - 53) - F) with 0
    by (unfold d, F; lia).
  unfold shr. cbv beta iota. unfold shr_record_of_loc, shr_m.
  reflexivity.
Qed.

Lemma Prim2SF_1024 : Prim2SF 1024%float = S754_finite false 4503599627370496 (-42).
Proof. reflexivity. Qed.

Lemma mul_1024_finite (x : float) s m e :
  Prim2SF x = S754_finite s m e ->
  Prim2SF (x * 1024)%float
  = if Z.max (Z.pos (digits2_pos m) + e - 43) (-1074) <=? 971
    then S754_finite s
           (shl m (Z.to_nat (e + 10 - Z.max (Z.pos (digits2_pos m) + e - 43) (-1074))))
           (Z.max (Z.pos (digits2_pos m) + e - 43) (-1074))
    else S754_infinity s.
Proof.
  intros Hx. rewrite mul_spec, Hx, Prim2SF_1024.
  unfold SF64mul, SFmul. rewrite xorb_false_r.
  apply binary_round_aux_exact.
  pose proof (Prim2SF_valid x) as Hv. rewrite Hx in Hv. exact Hv.
Qed.

Lemma mul_1024_zero (x : float) s :
  Prim2SF x = S754_zero s -> Prim2SF (x * 1024)%float = S754_zero s.
Proof.
  intros Hx. rewrite mul_spec, Hx, Prim2SF_1024. simpl. now rewrite xorb_false_r.
Qed.

Lemma mul_1024_infinity (x : float) s :
  Prim2SF x = S754_infinity s -> Prim2SF (x * 1024)%float = S754_infinity s.
Proof.
  intros Hx. rewrite mul_spec, Hx, Prim2SF_1024. simpl. now rewrite xorb_false_r.
Qed.

Lemma truncate_shiftl s m e :
  truncate s m e = if s then - Z.shiftl (Z.pos m) e else Z.shiftl (Z.pos m) e.
Proof.
  unfold truncate. destruct (Z.leb_spec 0 e); [reflexivity|].
  unfold Z.shiftr. now rewrite Z.opp_involutive.
Qed.

Lemma truncate_scaled s m m' e k :
  0 <= k -> Z.pos m' = Z.pos m * 2 ^ k ->
  truncate s m' (e - k) = truncate s m e.
Proof.
  intros Hk Hm. rewrite !truncate_shiftl, Hm.
  rewrite <- (Z.shiftl_mul_pow2 (Z.pos m) k Hk), Z.shiftl_shiftl by exact Hk.
  replace (k + (e - k)) with e by lia. reflexivity.
Qed.

(** One multiplication by 1024, as a step on mantissa and exponent: the
    value is kept and the mantissa is moved into canonical position, unless
    the product overflows. *)
Lemma mul_1024_step (x : float) s m e :
  Prim2SF x = S754_finite s m e ->
  (exists m' k, 0 <= k /\ Z.pos m' = Z.pos m * 2 ^ k
                /\ Prim2SF (x * 1024)%float = S754_finite s m' (e + 10 - k)
                /\ Z.pos (digits2_pos m') + (e + 10 - k) = Z.pos (digits2_pos m) + e + 10)
  \/ (Prim2SF (x * 1024)%float = S754_infinity s
      /\ 1014 < Z.pos (digits2_pos m) + e).
Proof.
  intros Hx. rewrite (mul_1024_finite x s m e Hx).
  pose proof (Prim2SF_valid x) as Hv. rewrite Hx in Hv.
  unfold valid_binary, bounded, canonical_mantissa in Hv.
  apply andb_true_iff in Hv as [Hc He].
  apply Z.eqb_eq in Hc. apply Z.leb_le in He.
  unfold fexp, SpecFloat.emin in Hc.
  change prec with 53 in *. change emax with 1024 in *.
  set (D := Z.pos (digits2_pos m)) in *.
  set (F := Z.max (D + e - 43) (-1074)).
  assert (HD : 1 <= D) by (unfold D; lia).
  destruct (Z.leb_spec F 971) as [HF|HF].
  - left. exists (shl m (Z.to_nat (e + 10 - F))), (e + 10 - F).
    assert (Hk : 0 <= e + 10 - F) by (unfold F; lia).
    split; [exact Hk|]. split; [rewrite shl_Z, Z2Nat.id by exact Hk; reflexivity|].
    split; [f_equal; lia|].
    rewrite shl_digits, Z2Nat.id by exact Hk. fold D. lia.
  - right. split; [reflexivity|]. unfold F in HF. lia.
Qed.

Lemma truncate_huge s m e :
  64 <= e -> ~ (int64_min <= truncate s m e <= int64_max).
Proof.
  intros He. rewrite truncate_shiftl, Z.shiftl_mul_pow2 by lia.
  assert (H64 : 2 ^ 64 <= 2 ^ e) by (apply Z.pow_le_mono_r; lia).
  assert (Hm : 2 ^ e <= Z.pos m * 2 ^ e) by nia.
  unfold int64_min, int64_max.
  change (2 ^ 64) with 18446744073709551616 in H64.
  change (2 ^ 63) with 9223372036854775808.
  destruct s; lia.
Qed.

Lemma valid_digits (x : float) s m e :
  Prim2SF x = S754_finite s m e -> Z.pos (digits2_pos m) <= 53.
Proof.
  intros Hx. pose proof (Prim2SF_valid x) as Hv. rewrite Hx in Hv.
  unfold valid_binary, bounded, canonical_mantissa in Hv.
  apply andb_true_iff in Hv as [Hc _]. apply Z.eqb_eq in Hc.
  unfold fexp, SpecFloat.emin in Hc.
  change prec with 53 in *. change emax with 1024 in *. lia.
Qed.

Lemma wrap64_range z : int64_min <= wrap64 z <= int64_max.
Proof.
  unfold wrap64, int64_min, int64_max.
  pose proof (Z.mod_pos_bound (z + 2 ^ 63) (2 ^ 64) eq_refl) as H.
  change (2 ^ 64) with (2 * 2 ^ 63) in *. lia.
Qed.

Lemma int64_of_scaled_GB (overflow : float -> Z) (gb : float) (t : Z) :
  exactBytes gb = Some t ->
  int64_min <= t <= int64_max ->
  int64_of_float64 overflow (gb * 1024 * 1024 * 1024)%float = t.
Proof.
  unfold exactBytes. destruct (Prim2SF gb) as [z| |  |s m e] eqn:Hx;
    try discriminate.
  - intros [= <-] _.
    unfold int64_of_float64.
    now rewrite (mul_1024_zero _ z (mul_1024_zero _ z (mul_1024_zero _ z Hx))).
  - intros [= <-] Hr.
    pose proof (valid_digits gb s m e Hx) as HD.
    assert (Hbig : 984 < Z.pos (digits2_pos m) + e -> False).
    { intros Hb. apply (truncate_huge s m (e + 30)); [lia|exact Hr]. }
    destruct (mul_1024_step gb s m e Hx)
      as [(m1 & k1 & Hk1 & Hm1 & Hx1 & Hd1)|[_ Hi]]; [|exfalso; apply Hbig; lia].
    destruct (mul_1024_step _ s m1 _ Hx1)
      as [(m2 & k2 & Hk2 & Hm2 & Hx2 & Hd2)|[_ Hi]]; [|exfalso; apply Hbig; lia].
    destruct (mul_1024_step _ s m2 _ Hx2)
      as [(m3 & k3 & Hk3 & Hm3 & Hx3 & Hd3)|[_ Hi]]; [|exfalso; apply Hbig; lia].
    unfold int64_of_float64. rewrite Hx3.
    assert (Ht : truncate s m3 (e + 10 - k1 + 10 - k2 + 10 - k3)
                 = truncate s m (e + 30)).
    { replace (e + 10 - k1 + 10 - k2 + 10 - k3) with (e + 30 - (k1 + k2 + k3)) by lia.
      apply truncate_scaled; [lia|].
      rewrite Hm3, Hm2, Hm1, !Z.pow_add_r by lia. ring. }
    cbv zeta. rewrite Ht.
    destruct Hr as [Hlo Hhi].
    apply Z.leb_le in Hlo, Hhi. rewrite Hlo, Hhi. reflexivity.
Qed.

Lemma truncate_integer s m e :
  0 <= e -> truncate s m e = (if s then -1 else 1) * (Z.pos m * 2 ^ e).
Proof.
  intros He. rewrite truncate_shiftl, Z.shiftl_mul_pow2 by exact He.
  destruct s; lia.
Qed.

Lemma truncate_fraction s m e :
  e < 0 -> truncate s m e = (if s then -1 else 1) * (Z.pos m / 2 ^ (- e)).
Proof.
  intros He. unfold truncate.
  destruct (Z.leb_spec 0 e); [lia|].
  rewrite Z.shiftr_div_pow2 by lia. destruct s; lia.
Qed.

(** [exactBytes] in plain arithmetic: for a GB value [(-1)^s * m * 2^e] it is
    the signed product [m * 2^(e+30)], or the signed quotient of [m] by
    [2^-(e+30)] when that exponent is negative. *)
Lemma exactBytes_arithmetic (gb : float) s m e :
  Prim2SF gb = S754_finite s m e ->
  exactBytes gb
  = Some ((if s then -1 else 1)
          * (if Z.leb 0 (e + 30) then Z.pos m * 2 ^ (e + 30)
             else Z.pos m / 2 ^ (- (e + 30)))).
Proof.
  intros Hx. unfold exactBytes. rewrite Hx. f_equal.
  destruct (Z.leb_spec 0 (e + 30)).
  - now apply truncate_integer.
  - now apply truncate_fraction.
Qed.

(** C8, as the code has it. [UnmarshalJSON] decodes the GB fields and stores
    the three byte counts beside them, once; a quota returned by [GetQuota]
    was built by it.  Each stored count is its GB field times 2^30 truncated
    towards zero, whenever that integer fits an [int64]. *)
Theorem UnmarshalJSON_derives_byte_counts
    (rt : Runtime) (data : JSON) (sq sq' : StorageQuota)
    (Hdec : UnmarshalJSON rt data sq = Some sq') :
  (forall t, exactBytes (StorageQuotaGB sq') = Some t ->
             int64_min <= t <= int64_max -> StorageQuotaBytes sq' = t)
  /\ (forall t, exactBytes (StorageUsedGB sq') = Some t ->
                int64_min <= t <= int64_max -> StorageUsedBytes sq' = t)
  /\ (forall t, exactBytes (StorageAvailableGB sq') = Some t ->
                int64_min <= t <= int64_max -> StorageAvailableBytes sq' = t)
  /\ (exists dq, decodeQuotaFields rt data sq = Some dq
                 /\ StorageQuotaGB sq' = StorageQuotaGB dq
                 /\ StorageUsedGB sq' = StorageUsedGB dq
                 /\ StorageAvailableGB sq' = StorageAvailableGB dq)
  /\ (forall s log log1 q,
        GetQuota rt s log = (log1, Ok q) ->
        exists data0, UnmarshalJSON rt data0 zeroStorageQuota = Some q).
Proof.
  unfold UnmarshalJSON in Hdec.
  destruct (decodeQuotaFields rt data sq) as [dq|] eqn:Hdq; [|discriminate].
  injection Hdec as <-. simpl.
  split; [intros t Ht Hr; now apply int64_of_scaled_GB|].
  split; [intros t Ht Hr; now apply int64_of_scaled_GB|].
  split; [intros t Ht Hr; now apply int64_of_scaled_GB|].
  split; [exists dq; repeat split|].
  intros s log log1 q. unfold GetQuota.
  destruct (Storage.doRequest rt s "GET" "/api/v1/storage/quota" None log)
    as [l [resp|e]]; [|discriminate].
  destruct resp as [j|]; simpl; [|discriminate].
  destruct (UnmarshalJSON rt j zeroStorageQuota) as [q0|] eqn:Hq; [|discriminate].
  intros [= _ <-]. now exists j.
Qed.

(** C8 on the quota document of 10 GB with 2.5 GB used and 7.5 GB available:
    the available bytes are (10 - 2.5) * 2^30. *)
Lemma UnmarshalJSON_derives_witness :
  exists q,
    UnmarshalJSON (sampleRuntime (always 200 (JObject [])) [] sampleQuotaFields)
                  (JObject []) zeroStorageQuota = Some q
    /\ StorageAvailableBytes q = 8053063680
    /\ 8053063680 = 10 * 2 ^ 30 - 5 * 2 ^ 29.
Proof.
  eexists. split; [reflexivity|]. split; [|reflexivity].
  refine (proj1 (proj2 (proj2
            (UnmarshalJSON_derives_byte_counts
               (sampleRuntime (always 200 (JObject [])) [] sampleQuotaFields)
               (JObject []) zeroStorageQuota _ eq_refl))) 8053063680 eq_refl _).
  unfold int64_min, int64_max. lia.
Defined.

(** C8 as stated fails on a GB value whose byte count exceeds an [int64]:
    1e10 GB is 10737418240000000000 bytes, which no platform's conversion
    can leave in the field; on amd64 the field holds -2^63. *)
Lemma UnmarshalJSON_bytes_out_of_range :
  exactBytes 1e10%float = Some 10737418240000000000
  /\ 10737418240000000000 = 10 ^ 10 * 2 ^ 30
  /\ int64_max < 10737418240000000000
  /\ ~ (exists (rt : Runtime) (data : JSON) (sq q : StorageQuota),
          UnmarshalJSON rt data sq = Some q
          /\ StorageQuotaGB q = 1e10%float
          /\ StorageQuotaBytes q = 10737418240000000000)
  /\ (exists q,
        UnmarshalJSON (sampleRuntime (always 200 (JObject [])) [] hugeQuotaFields)
                      (JObject []) zeroStorageQuota = Some q
        /\ StorageQuotaGB q = 1e10%float
        /\ StorageQuotaBytes q = int64_min).
Proof.
  split; [reflexivity|]. split; [reflexivity|]. split; [reflexivity|].
  split.
  - intros (rt & data & sq & q & Hq & Hgb & Hb).
    unfold UnmarshalJSON in Hq.
    destruct (decodeQuotaFields rt data sq) as [dq|]; [|discriminate].
    injection Hq as <-. simpl in Hgb, Hb. rewrite Hgb in Hb.
    unfold int64_of_float64 in Hb.
    assert (Hp : Prim2SF (1e10 * 1024 * 1024 * 1024)%float
                 = S754_finite false 5242880000000000 11) by reflexivity.
    rewrite Hp in Hb. cbv zeta in Hb.
    change (truncate false 5242880000000000 11) with 10737418240000000000 in Hb.
    change (Z.leb int64_min 10737418240000000000
            && Z.leb 10737418240000000000 int64_max) with false in Hb.
    pose proof (wrap64_range (int64Overflow rt (1e10 * 1024 * 1024 * 1024)%float)) as Hr.
    rewrite Hb in Hr. unfold int64_max in Hr. lia.
  - eexists. split; [reflexivity|]. split; reflexivity.
Qed.

(** * Further properties of the code *)

(** ** The builder's mutators *)

Lemma buildQueryBody_lookup qb k :
  buildQueryBody qb !! k =
  if String.eqb k "columns"
  then match columns qb with [] => None | _ => Some (BStrings (columns qb)) end
  else if String.eqb k "filters"
  then match filters qb with [] => None | _ => Some (BFilters (filters qb)) end
  else if String.eqb k "order_by"
  then (if String.eqb (orderColumn qb) "" then None
        else Some (BString (orderColumn qb)))
  else if String.eqb k "order_direction"
  then (if String.eqb (orderColumn qb) "" then None
        else Some (BString (orderDirection qb)))
  else if String.eqb k "limit" then BInt <$> limitValue qb
  else if String.eqb k "offset" then BInt <$> offsetValue qb
  else None.
Proof.
  destruct (String.eqb_spec k "columns") as [->|H1]; [apply buildQueryBody_columns|].
  destruct (String.eqb_spec k "filters") as [->|H2]; [apply buildQueryBody_filters|].
  destruct (String.eqb_spec k "order_by") as [->|H3]; [apply buildQueryBody_order_by|].
  destruct (String.eqb_spec k "order_direction") as [->|H4];
    [apply buildQueryBody_order_direction|].
  destruct (String.eqb_spec k "limit") as [->|H5]; [apply buildQueryBody_limit|].
  destruct (String.eqb_spec k "offset") as [->|H6]; [apply buildQueryBody_offset|].
  destruct (buildQueryBody qb !! k) as [v|] eqn:Hk; [|reflexivity].
  pose proof (buildQueryBody_dom qb k (ex_intro _ v Hk)) as Hin.
  repeat (apply elem_of_cons in Hin as [->|Hin]); try congruence.
  now apply elem_of_nil in Hin.
Qed.

(** X1. What a fluent chain of any mutator calls leaves in the builder: the
    filters of the start followed by one entry per filter call, in call
    order; the columns, the order, the limit and the offset of the last
    [Select], [OrderBy], [Limit], [Offset] of the chain, or those of the
    start when the chain has no such call.  Table and client are kept. *)
Theorem runChain_state (ms : list Mutator) (qb : QueryBuilder) :
  filters (runChain ms qb)
  = filters qb ++ List.map expectedEntry (filterCalls ms)
  /\ columns (runChain ms qb) = default (columns qb) (lastOf pickSelect ms)
  /\ (orderColumn (runChain ms qb), orderDirection (runChain ms qb))
     = default (orderColumn qb, orderDirection qb) (lastOf pickOrder ms)
  /\ limitValue (runChain ms qb)
     = match lastOf pickLimit ms with
       | Some n => Some n
       | None => limitValue qb
       end
  /\ offsetValue (runChain ms qb)
     = match lastOf pickOffset ms with
       | Some n => Some n
       | None => offsetValue qb
       end
  /\ tableName (runChain ms qb) = tableName qb
  /\ client (runChain ms qb) = client qb.
Proof.
  revert qb. induction ms as [|m ms IH]; intros qb.
  - simpl. rewrite app_nil_r. repeat split.
  - change (runChain (m :: ms) qb) with (runChain ms (applyMutator m qb)).
    destruct (IH (applyMutator m qb)) as (Hf & Hc & Ho & Hl & Hof & Ht & Hcl).
    rewrite Hf, Hc, Ho, Hl, Hof, Ht, Hcl. simpl lastOf.
    destruct (lastOf pickSelect ms), (lastOf pickOrder ms),
      (lastOf pickLimit ms), (lastOf pickOffset ms);
      destruct m as [c| | | |]; try destruct c; simpl;
      rewrite <- ?app_assoc; repeat split.
Qed.

(** X2. Each mutator changes only its own keys of the query body: a filter
    call only [filters], [Select] only [columns], [OrderBy] only [order_by]
    and [order_direction], [Limit] only [limit], [Offset] only [offset]. *)
Theorem mutators_change_only_their_keys (qb : QueryBuilder) (k : string) :
  (forall c, k <> "filters" ->
             buildQueryBody (call c qb) !! k = buildQueryBody qb !! k)
  /\ (forall cs, k <> "columns" ->
                 buildQueryBody (Select cs qb) !! k = buildQueryBody qb !! k)
  /\ (forall col dir, k <> "order_by" -> k <> "order_direction" ->
                      buildQueryBody (OrderBy col dir qb) !! k
                      = buildQueryBody qb !! k)
  /\ (forall n, k <> "limit" ->
                buildQueryBody (Limit n qb) !! k = buildQueryBody qb !! k)
  /\ (forall n, k <> "offset" ->
                buildQueryBody (Offset n qb) !! k = buildQueryBody qb !! k).
Proof.
  repeat split; intros; rewrite !buildQueryBody_lookup;
    repeat match goal with
           | H : k <> ?s |- _ => apply String.eqb_neq in H; rewrite H; clear H
           end;
    try (destruct c); reflexivity.
Qed.

(** X3. [Limit] and [Offset] pass any integer through to the body, zero and
    negative ones included, and [GetByID] serializes exactly the columns
    ["*"], one [id eq] filter and [limit: 1]. *)
Theorem limit_offset_pass_through (qb : QueryBuilder) (n : Z) :
  member "limit" (marshalBody (buildQueryBody (Limit n qb))) = Some (JInt n)
  /\ member "offset" (marshalBody (buildQueryBody (Offset n qb))) = Some (JInt n)
  /\ (forall t id,
        marshalBody (buildQueryBody (GetByID t id))
        = JObject [("columns", JArray [JString "*"]);
                   ("filters", JArray [marshalFilter (mkFilter "id" OpEq id)]);
                   ("limit", JInt 1)]).
Proof.
  split; [rewrite member_marshalBody, buildQueryBody_lookup; reflexivity|].
  split; [rewrite member_marshalBody, buildQueryBody_lookup; reflexivity|].
  intros t id. vm_compute. reflexivity.
Qed.

(** ** Update, delete and the transport of the data API *)

Lemma member_marshalMutationBody k (body : gmap string MutationValue) :
  member k (marshalMutationBody body) = marshalMutationValue <$> body !! k.
Proof.
  unfold marshalMutationBody, member.
  rewrite assoc_sortMembers, assoc_list_to_map.
  now rewrite list_to_map_to_list.
Qed.

Lemma doRequestJSON_log rt c method path body log :
  (doRequestJSON rt c method path body log).1 = log
  \/ (doRequestJSON rt c method path body log).1
     = log ++ [mkRequest method (projectURL c +:+ path)
                 [("Content-Type", "application/json");
                  ("Accept", "application/json");
                  ("Authorization", "Bearer " +:+ apiKey c)]
                 match body with Some j => JsonBody j | None => NoBody end].
Proof.
  unfold doRequestJSON.
  destruct (urlError rt _); [left; reflexivity|]. right.
  destruct (backend rt log _) as [x|st x|st b]; try reflexivity.
  destruct (failedStatus st); reflexivity.
Qed.



Lemma Update_log rt dec qb data log :
  (Update rt dec qb data log).1 = log
  \/ (Update rt dec qb data log).1
     = log ++ [mutationRequest "PUT" qb (updateBody qb data)].
Proof.
  unfold Update.
  pose proof (doRequestJSON_log rt (client qb) "PUT"
                ("/api/v1/tables/" +:+ tableName qb)
                (Some (marshalMutationBody (updateBody qb data))) log) as H.
  destruct (doRequestJSON rt (client qb) "PUT" _ _ log) as [l [resp|e]];
    simpl in H; [destruct (resp ≫= decodeUpdateResponse dec)|]; exact H.
Qed.

Lemma Delete_log rt dec qb log :
  (Delete rt dec qb log).1 = log
  \/ (Delete rt dec qb log).1
     = log ++ [mutationRequest "DELETE" qb (deleteBody qb)].
Proof.
  unfold Delete.
  pose proof (doRequestJSON_log rt (client qb) "DELETE"
                ("/api/v1/tables/" +:+ tableName qb)
                (Some (marshalMutationBody (deleteBody qb))) log) as H.
  destruct (doRequestJSON rt (client qb) "DELETE" _ _ log) as [l [resp|e]];
    simpl in H; [destruct (resp ≫= decodeDeleteResponse dec)|]; exact H.
Qed.

Lemma marshalMutationBody_update qb data :
  marshalMutationBody (updateBody qb data)
  = JObject (("data", marshalGoMap data)
             :: match filters qb with
                | [] => []
                | fs => [("filters", JArray (List.map marshalFilter fs))]
                end).
Proof.
  unfold updateBody. destruct (filters qb) as [|f fs]; simpl length.
  - vm_compute. reflexivity.
  - replace (Z.ltb 0 (Z.of_nat (S (length fs)))) with true
      by (symmetry; apply Z.ltb_lt; lia).
    vm_compute. reflexivity.
Qed.

Lemma marshalMutationBody_delete qb :
  marshalMutationBody (deleteBody qb)
  = JObject match filters qb with
            | [] => []
            | fs => [("filters", JArray (List.map marshalFilter fs))]
            end.
Proof.
  unfold deleteBody. destruct (filters qb) as [|f fs]; simpl length.
  - vm_compute. reflexivity.
  - replace (Z.ltb 0 (Z.of_nat (S (length fs)))) with true
      by (symmetry; apply Z.ltb_lt; lia).
    vm_compute. reflexivity.
Qed.



(** X7. [UpdateByID] and [DeleteByID] never send an unfiltered request: the
    body always holds a [filters] list of exactly one [id eq] entry, for
    every id, the nil one included (whose entry then has no [value]). *)
Theorem ByID_requests_are_filtered
    (rt : Runtime) (dec : Decoders) (t : Table) (id : GoValue) (data : GoMap)
    (log : list HttpRequest) :
  ((UpdateByID rt dec t id data log).1 = log
   \/ exists req,
       (UpdateByID rt dec t id data log).1 = log ++ [req]
       /\ reqMethod req = "PUT"
       /\ reqURL req = projectURL (tClient t) +:+ "/api/v1/tables/" +:+ tName t
       /\ reqBody req
          = JsonBody (JObject [("data", marshalGoMap data);
                               ("filters",
                                JArray [marshalFilter (mkFilter "id" OpEq id)])]))
  /\ ((DeleteByID rt dec t id log).1 = log
      \/ exists req,
          (DeleteByID rt dec t id log).1 = log ++ [req]
          /\ reqMethod req = "DELETE"
          /\ reqURL req = projectURL (tClient t) +:+ "/api/v1/tables/" +:+ tName t
          /\ reqBody req
             = JsonBody (JObject [("filters",
                                   JArray [marshalFilter (mkFilter "id" OpEq id)])]))
  /\ (hasKey "value" (marshalFilter (mkFilter "id" OpEq id)) = false <-> id = GNil).
Proof.
  split; [|split].
  - unfold UpdateByID.
    destruct (Update_log rt dec (Eq "id" id (Where t)) data log) as [H|H];
      [left; exact H|right].
    eexists. split; [exact H|]. split; [reflexivity|]. split; [reflexivity|].
    unfold mutationRequest; simpl. now rewrite marshalMutationBody_update.
  - unfold DeleteByID.
    destruct (Delete_log rt dec (Eq "id" id (Where t)) log) as [H|H];
      [left; exact H|right].
    eexists. split; [exact H|]. split; [reflexivity|]. split; [reflexivity|].
    unfold mutationRequest; simpl. now rewrite marshalMutationBody_delete.
  - destruct id; simpl; split; intros H; try reflexivity; try discriminate.
Qed.

(** ** The storage client *)

Lemma parseStorageError_kind status body :
  kindOf (parseStorageError status body)
  = if Z.eqb status 413 then StorageLimitExceededKind else StorageKind.
Proof. unfold parseStorageError. now destruct (Z.eqb status 413). Qed.

Lemma Storage_doRequest_error_kind rt s method path body log e :
  (Storage.doRequest rt s method path body log).2 = Err e ->
  kindOf e ∈ [StorageKind; StorageLimitExceededKind; WrappedKind].
Proof.
  unfold Storage.doRequest.
  destruct (urlError rt _); simpl; [intros [= <-]; simpl; set_solver|].
  destruct (backend rt log _) as [x|st x|st b]; simpl;
    try (intros [= <-]; simpl; set_solver).
  destruct (failedStatus st); simpl; [|discriminate].
  intros [= <-]. rewrite parseStorageError_kind.
  destruct (Z.eqb st 413); set_solver.
Qed.

Lemma GetFileInfo_error_kind rt dec s key log e :
  (GetFileInfo rt dec s key log).2 = Err e ->
  kindOf e ∈ [StorageKind; StorageLimitExceededKind; WrappedKind].
Proof.
  unfold GetFileInfo.
  pose proof (Storage_doRequest_error_kind rt s "GET"
                ("/api/v1/storage/info?key=" +:+ key) None log) as H.
  destruct (Storage.doRequest rt s "GET" _ None log) as [l [resp|e']]; simpl in *.
  - destruct (resp ≫= decodeStorageFile dec); simpl; [discriminate|].
    intros [= <-]. simpl. set_solver.
  - intros [= <-]. now apply H.
Qed.

(** X8. No call of the storage client returns one of the data API's error
    types: an error of [GetQuota], [GetFileInfo], [ListFiles], [Download],
    [DeleteFile] or [Upload] is a [StorageError], a
    [StorageLimitExceededError] or a wrapped local error, so a 401, 404 or
    429 answer never arrives as [AuthenticationError], [NotFoundError] or
    [RateLimitError]. *)
Theorem storage_errors_are_storage_kinds
    (rt : Runtime) (dec : FileDecoders) (s : StorageClient)
    (log : list HttpRequest) (e : error) :
  ((GetQuota rt s log).2 = Err e
   \/ (exists key, (GetFileInfo rt dec s key log).2 = Err e)
   \/ (exists prefix limit, (ListFiles rt dec s prefix limit log).2 = Err e)
   \/ (exists key expiresIn, (Download rt dec s key expiresIn log).2 = Err e)
   \/ (exists key, (DeleteFile rt s key log).2 = Some e)
   \/ (exists fileData key contentType checkQuota,
         (Upload rt s fileData key contentType checkQuota log).2 = Err e)) ->
  kindOf e ∈ [StorageKind; StorageLimitExceededKind; WrappedKind]
  /\ kindOf e <> NotFoundKind /\ kindOf e <> AuthenticationKind
  /\ kindOf e <> RateLimitKind /\ kindOf e <> NetworkKind.
Proof.
  intros H.
  assert (Hk : kindOf e ∈ [StorageKind; StorageLimitExceededKind; WrappedKind]).
  { assert (HQ : forall l, (GetQuota rt s l).2 = Err e ->
                 kindOf e ∈ [StorageKind; StorageLimitExceededKind; WrappedKind]).
    { intros l. unfold GetQuota.
      pose proof (Storage_doRequest_error_kind rt s "GET"
                    "/api/v1/storage/quota" None l) as Hd.
      destruct (Storage.doRequest rt s "GET" _ None l) as [l1 [resp|e']];
        simpl in *.
      - destruct (resp ≫= _); simpl; [discriminate|].
        intros [= <-]. simpl. set_solver.
      - intros [= <-]. now apply Hd. }
    destruct H as [H|[(key & H)|[(prefix & limit & H)|[(key & ex & H)
                  |[(key & H)|(fileData & key & ct & cq & H)]]]]].
    - now apply (HQ log).
    - now apply (GetFileInfo_error_kind rt dec s key log).
    - revert H. unfold ListFiles.
      pose proof (Storage_doRequest_error_kind rt s "GET"
                    (listPath prefix limit) None log) as Hd.
      destruct (Storage.doRequest rt s "GET" _ None log) as [l1 [resp|e']];
        simpl in *.
      + destruct (resp ≫= _); simpl; [discriminate|].
        intros [= <-]. simpl. set_solver.
      + intros [= <-]. now apply Hd.
    - revert H. unfold Download.
      pose proof (Storage_doRequest_error_kind rt s "GET"
                    ("/api/v1/storage/download?key=" +:+ key
                     +:+ "&expires_in=" +:+ itoa ex) None log) as Hd.
      destruct (Storage.doRequest rt s "GET" _ None log) as [l1 [resp|e']];
        simpl in *.
      + destruct (resp ≫= _); simpl; [discriminate|].
        intros [= <-]. simpl. set_solver.
      + intros [= <-]. now apply Hd.
    - revert H. unfold DeleteFile.
      pose proof (Storage_doRequest_error_kind rt s "DELETE"
                    "/api/v1/storage/delete"
                    (Some ({[ "key" := BString key ]} : gmap string BodyValue))
                    log) as Hd.
      destruct (Storage.doRequest rt s "DELETE" _ _ log) as [l1 [resp|e']];
        simpl in *; [discriminate|].
      intros [= <-]. now apply Hd.
    - revert H. unfold Upload.
      destruct (match cq with Some b => b | None => autoCheckQuota s end).
      + pose proof (HQ log) as Hq.
        destruct (GetQuota rt s log) as [l1 [quota|e']]; simpl in Hq.
        * destruct (Z.ltb (StorageAvailableBytes quota) _); simpl.
          -- intros [= <-]. simpl. set_solver.
          -- destruct (urlError rt _); simpl; [intros [= <-]; simpl; set_solver|].
             destruct (backend rt l1 _) as [x|st x|st b]; simpl;
               try (intros [= <-]; simpl; set_solver).
             destruct (failedStatus st); simpl.
             ++ intros [= <-]. rewrite parseStorageError_kind.
                destruct (Z.eqb st 413); set_solver.
             ++ destruct (b ≫= _); simpl; [discriminate|].
                intros [= <-]. simpl. set_solver.
        * simpl. intros [= <-]. now apply Hq.
      + destruct (urlError rt _); simpl; [intros [= <-]; simpl; set_solver|].
        destruct (backend rt log _) as [x|st x|st b]; simpl;
          try (intros [= <-]; simpl; set_solver).
        destruct (failedStatus st); simpl.
        * intros [= <-]. rewrite parseStorageError_kind.
          destruct (Z.eqb st 413); set_solver.
        * destruct (b ≫= _); simpl; [discriminate|].
          intros [= <-]. simpl. set_solver. }
  split; [exact Hk|].
  repeat split; intros Heq; rewrite Heq in Hk; set_solver.
Qed.

(** X9. [FileExists] never answers "absent": it returns [true] exactly when
    [GetFileInfo] succeeds and otherwise returns the error of
    [GetFileInfo], since no storage error is a [NotFoundError]; a 404
    answer comes back as a [StorageError] with status 404. *)
Theorem FileExists_never_false
    (rt : Runtime) (dec : FileDecoders) (s : StorageClient) (key : string)
    (log : list HttpRequest) :
  (FileExists rt dec s key log).2 <> Ok false
  /\ ((FileExists rt dec s key log).2 = Ok true
      <-> exists file, (GetFileInfo rt dec s key log).2 = Ok file)
  /\ (forall e, (GetFileInfo rt dec s key log).2 = Err e ->
                (FileExists rt dec s key log).2 = Err e)
  /\ (FileExists rt dec s key log).1 = (GetFileInfo rt dec s key log).1
  /\ (forall body,
        urlError rt (sProjectURL s +:+ "/api/v1/storage/info?key=" +:+ key) = false ->
        backend rt log
          (mkRequest "GET" (sProjectURL s +:+ "/api/v1/storage/info?key=" +:+ key)
             [("Content-Type", "application/json");
              ("Accept", "application/json");
              ("Authorization", "Bearer " +:+ sApiKey s)] NoBody)
        = Responds 404 body ->
        exists e, (FileExists rt dec s key log).2 = Err (ErrStorage e)
                  /\ SStatusCode e = 404).
Proof.
  pose proof (GetFileInfo_error_kind rt dec s key log) as Hk.
  unfold FileExists.
  destruct (GetFileInfo rt dec s key log) as [l [file|e]] eqn:HG; simpl in *.
  - split; [discriminate|]. split; [split; eauto|].
    split; [discriminate|]. split; [reflexivity|].
    intros body Hurl Hb. exfalso. revert HG. unfold GetFileInfo, Storage.doRequest.
    rewrite Hurl, Hb. simpl. discriminate.
  - specialize (Hk e eq_refl).
    assert (Hsame : match e with
                    | ErrNotFound _ => (l, Ok false)
                    | _ => (l, Err e)
                    end = (l, Err e)).
    { destruct e; try reflexivity. simpl in Hk. set_solver. }
    rewrite Hsame. simpl.
    split; [discriminate|].
    split; [split; [discriminate|intros [? ?]; discriminate]|].
    split; [intros e' [= <-]; reflexivity|]. split; [reflexivity|].
    intros body Hurl Hb. revert HG. unfold GetFileInfo, Storage.doRequest.
    rewrite Hurl, Hb. simpl. intros [= _ <-].
    eexists. split; reflexivity.
Qed.

Lemma GetQuota_log_cases rt s log :
  (GetQuota rt s log).1 = log \/ (GetQuota rt s log).1 = log ++ [quotaRequest s].
Proof.
  unfold GetQuota.
  pose proof (Storage_doRequest_log rt s "GET" "/api/v1/storage/quota" None log) as H.
  cbv zeta in H.
  destruct (Storage.doRequest rt s "GET" _ None log) as [l [resp|e]]; simpl in H;
    [destruct (resp ≫= _)|]; exact H.
Qed.

(** X10. When the quota check is on and fetching the quota fails, [Upload]
    returns that very error and stops: the log is the one [GetQuota] left,
    which holds at most the quota request, and no upload request. *)
Theorem Upload_stops_when_quota_fetch_fails
    (rt : Runtime) (s : StorageClient) (fileData : list byte)
    (key contentType : string) (checkQuota : option bool)
    (log : list HttpRequest) (e : error)
    (Hcheck : match checkQuota with
              | Some b => b
              | None => autoCheckQuota s
              end = true)
    (Hquota : (GetQuota rt s log).2 = Err e) :
  Upload rt s fileData key contentType checkQuota log
  = ((GetQuota rt s log).1, Err e)
  /\ ((Upload rt s fileData key contentType checkQuota log).1 = log
      \/ (Upload rt s fileData key contentType checkQuota log).1
         = log ++ [quotaRequest s])
  /\ uploadRequest rt s fileData key contentType
     <> quotaRequest s.
Proof.
  assert (HU : Upload rt s fileData key contentType checkQuota log
               = ((GetQuota rt s log).1, Err e)).
  { unfold Upload. rewrite Hcheck.
    destruct (GetQuota rt s log) as [l [q|e']]; simpl in Hquota; [discriminate|].
    injection Hquota as <-. reflexivity. }
  split; [exact HU|]. rewrite HU. simpl.
  split; [apply GetQuota_log_cases|discriminate].
Qed.

(** X11. When the guard lets the payload through and the backend answers the
    upload with a 2xx body that decodes, [Upload] returns the decoded result
    after exactly one upload request.  The guard lets a payload through
    whose length equals the available bytes, and with the check switched
    off for the call no quota request is made at all. *)
Theorem Upload_succeeds_after_guard
    (rt : Runtime) (s : StorageClient) (fileData : list byte)
    (key contentType : string) (checkQuota : option bool)
    (log log1 : list HttpRequest) (status : Z) (body : JSON)
    (res : FileUploadResult)
    (Hguard :
       (match checkQuota with Some b => b | None => autoCheckQuota s end = false
        /\ log1 = log)
       \/ (match checkQuota with Some b => b | None => autoCheckQuota s end = true
           /\ exists quota, GetQuota rt s log = (log1, Ok quota)
                            /\ Z.of_nat (length fileData)
                               <= StorageAvailableBytes quota))
    (Hurl : urlError rt (reqURL (uploadRequest rt s fileData key contentType)) = false)
    (Hresp : backend rt log1 (uploadRequest rt s fileData key contentType)
             = Responds status (Some body))
    (Hok : failedStatus status = false)
    (Hdec : decodeFileUploadResult rt body = Some res) :
  Upload rt s fileData key contentType checkQuota log
  = (log1 ++ [uploadRequest rt s fileData key contentType], Ok res)
  /\ (checkQuota = Some false ->
      (Upload rt s fileData key contentType checkQuota log).1
      = log ++ [uploadRequest rt s fileData key contentType])
  /\ reqBody (uploadRequest rt s fileData key contentType)
     = MultipartBody
         ([FormField "key" key]
          ++ (if String.eqb contentType "" then []
              else [FormField "content_type" contentType])
          ++ [FormFile "file" key fileData]).
Proof.
  assert (HU : Upload rt s fileData key contentType checkQuota log
               = (log1 ++ [uploadRequest rt s fileData key contentType], Ok res)).
  { rewrite (Upload_after_guard rt s fileData key contentType checkQuota
               log log1 Hguard).
    cbv zeta. rewrite Hurl, Hresp, Hok. simpl. rewrite Hdec. reflexivity. }
  split; [exact HU|]. split.
  - intros ->. rewrite HU. simpl.
    destruct Hguard as [[_ ->]|[Hc _]]; [reflexivity|discriminate].
  - unfold uploadRequest. simpl. now destruct (String.eqb contentType "").
Qed.

(** ** formatBytes and the error texts *)

Lemma formatBytesLoop_unit fuel :
  forall n div exp,
    1 <= n < 1024 ^ Z.of_nat fuel ->
    exists k : nat,
      formatBytesLoop fuel n div exp = (div * 1024 ^ Z.of_nat k, (exp + k)%nat)
      /\ 1024 ^ Z.of_nat k <= n < 1024 ^ (Z.of_nat k + 1).
Proof.
  induction fuel as [|fuel IH]; intros n div exp Hn.
  - simpl in Hn. lia.
  - simpl formatBytesLoop. destruct (Z.leb_spec 1024 n) as [Hge|Hlt].
    + rewrite Nat2Z.inj_succ, Z.pow_succ_r in Hn by lia.
      assert (Hq : Z.quot n 1024 = n / 1024) by (apply Z.quot_div_nonneg; lia).
      rewrite Hq.
      assert (Hn' : 1 <= n / 1024 < 1024 ^ Z.of_nat fuel).
      { split; [apply Z.div_le_lower_bound; lia|
                apply Z.div_lt_upper_bound; lia]. }
      destruct (IH (n / 1024) (div * 1024) (S exp) Hn') as (k & Hk & Hlo & Hhi).
      exists (S k). rewrite Hk.
      replace (Z.of_nat (S k) + 1) with (Z.of_nat k + 1 + 1) by lia.
      replace (Z.of_nat (S k)) with (Z.of_nat k + 1) by lia.
      rewrite (Z.pow_add_r 1024 (Z.of_nat k + 1) 1) by lia.
      rewrite (Z.pow_add_r 1024 (Z.of_nat k) 1) in * by lia.
      rewrite Z.pow_1_r in *.
      pose proof (Z.div_mod n 1024 ltac:(lia)) as Hdm.
      pose proof (Z.mod_pos_bound n 1024 ltac:(lia)) as Hmb.
      split; [f_equal; [ring|lia]|].
      remember (1024 ^ Z.of_nat k) as P eqn:HP. clear HP.
      remember (n / 1024) as q eqn:Hq'. clear Hq'.
      lia.
    + exists O. simpl. split; [f_equal; [lia|lia]|lia].
Qed.

(** X12. [formatBytes] prints a count below 1024, negative ones included, as
    the integer followed by " B".  For a count from 1024 up to the largest
    [int64] the loop stops at the unit [1024^(k+1)] with
    [1024^(k+1) <= bytes < 1024^(k+2)] and [k <= 5], so the index into
    "KMGTPE" is always in range, and the text is the quotient by that unit
    in [%.2f] followed by the unit letter and "B". *)
Theorem formatBytes_unit_in_range (rt : Runtime) (bytes : Z) :
  (bytes < 1024 -> formatBytes rt bytes = itoa bytes +:+ " B")
  /\ (1024 <= bytes <= int64_max ->
      exists (k : nat) (c : ascii),
        (k <= 5)%nat
        /\ String.get k "KMGTPE" = Some c
        /\ 1024 ^ (Z.of_nat k + 1) <= bytes < 1024 ^ (Z.of_nat k + 2)
        /\ formatBytes rt bytes
           = sprintf2f rt (float64_of_int64 bytes
                           / float64_of_int64 (1024 ^ (Z.of_nat k + 1)))%float
             +:+ " " +:+ String c "" +:+ "B").
Proof.
  split.
  - intros Hlt. unfold formatBytes. apply Z.ltb_lt in Hlt. now rewrite Hlt.
  - intros [Hlo Hhi]. unfold int64_max in Hhi.
    assert (Hq : Z.quot bytes 1024 = bytes / 1024)
      by (apply Z.quot_div_nonneg; lia).
    assert (Hn : 1 <= bytes / 1024 < 1024 ^ Z.of_nat 64).
    { split; [apply Z.div_le_lower_bound; lia|].
      apply Z.div_lt_upper_bound; [lia|].
      assert (2 ^ 63 < 1024 * 1024 ^ Z.of_nat 64) by (vm_compute; reflexivity).
      lia. }
    destruct (formatBytesLoop_unit 64 (bytes / 1024) 1024 0 Hn)
      as (k & Hk & Hklo & Hkhi).
    pose proof (Z.div_mod bytes 1024 ltac:(lia)) as Hdm.
    pose proof (Z.mod_pos_bound bytes 1024 ltac:(lia)) as Hmb.
    assert (Hb : 1024 ^ (Z.of_nat k + 1) <= bytes < 1024 ^ (Z.of_nat k + 2)).
    { replace (Z.of_nat k + 2) with (Z.of_nat k + 1 + 1) by lia.
      rewrite (Z.pow_add_r 1024 (Z.of_nat k + 1) 1) by lia.
      rewrite (Z.pow_add_r 1024 (Z.of_nat k) 1) in * by lia.
      rewrite Z.pow_1_r in *.
      remember (1024 ^ Z.of_nat k) as P eqn:HP. clear HP.
      remember (bytes / 1024) as q eqn:Hq'. clear Hq'.
      lia. }
    assert (Hk5 : (k <= 5)%nat).
    { destruct (Nat.le_gt_cases k 5) as [H|H]; [exact H|exfalso].
      assert (1024 ^ 7 <= 1024 ^ (Z.of_nat k + 1))
        by (apply Z.pow_le_mono_r; lia).
      assert (2 ^ 63 < 1024 ^ 7) by (vm_compute; reflexivity).
      lia. }
    assert (Hc : exists c, String.get k "KMGTPE" = Some c).
    { do 6 (destruct k as [|k]; [eexists; reflexivity|]). lia. }
    destruct Hc as [c Hc].
    exists k, c. split; [exact Hk5|]. split; [exact Hc|]. split; [exact Hb|].
    unfold formatBytes.
    assert (Hge : Z.ltb bytes 1024 = false) by (apply Z.ltb_ge; lia).
    rewrite Hge, Hq, Hk. simpl Nat.add. rewrite Hc.
    replace (1024 * 1024 ^ Z.of_nat k) with (1024 ^ (Z.of_nat k + 1))
      by (rewrite Z.pow_add_r, Z.pow_1_r by lia; ring).
    reflexivity.
Qed.

(** [formatBytes] on one and a half KiB. *)
Lemma formatBytes_unit_witness :
  exists (k : nat) (c : ascii),
    (k <= 5)%nat
    /\ String.get k "KMGTPE" = Some c
    /\ 1024 ^ (Z.of_nat k + 1) <= 1536 < 1024 ^ (Z.of_nat k + 2).
Proof.
  destruct (proj2 (formatBytes_unit_in_range
                     (sampleRuntime (always 200 (JObject [])) [] sampleQuotaFields)
                     1536)
                  (conj (Zle_bool_imp_le 1024 1536 eq_refl)
                        (Zle_bool_imp_le 1536 int64_max eq_refl)))
    as (k & c & H5 & Hc & Hb & _).
  exists k, c. split; [exact H5|]. split; [exact Hc|exact Hb].
Defined.

(** X13. The text of an error.  Every error of [parseError] with a positive
    status reads "WowMySQLError(N): message" whatever its type is, so the
    text does not tell an [AuthenticationError] from a [NotFoundError].  A
    [StorageLimitExceededError] built from a 413 answer never prints byte
    counts, and one built by the quota guard prints them exactly when the
    available count is positive. *)
Theorem error_texts
    (rt : Runtime) (status : Z) (body : option JSON) :
  (0 < status ->
   errorString rt (parseError status body)
   = "WowMySQLError(" +:+ itoa status +:+ "): "
     +:+ extractMessage status (unmarshalMap body))
  /\ (status <= 0 ->
      errorString rt (parseError status body)
      = "WowMySQLError: " +:+ extractMessage status (unmarshalMap body))
  /\ errorString rt (parseStorageError 413 body)
     = "StorageLimitExceededError: " +:+ extractMessage 413 (unmarshalMap body)
  /\ (forall msg size available,
        available < size ->
        errorString rt (ErrStorageLimitExceeded
                          (mkStorageLimitExceededError msg size available 0 ∅))
        = if Z.ltb 0 available
          then "StorageLimitExceededError: " +:+ msg
               +:+ " (Required: " +:+ formatBytes rt size
               +:+ ", Available: " +:+ formatBytes rt available +:+ ")"
          else "StorageLimitExceededError: " +:+ msg)
  /\ (forall cause,
        errorString rt (ErrStorage (mkStorageError "" 0 ∅ (Some cause)))
        = "StorageError: " +:+ cause
        /\ errorString rt (ErrNetwork cause) = "NetworkError: " +:+ cause).
Proof.
  assert (Hp : forall w,
             parseError status body = w ->
             errorString rt w
             = WowMySQLError_Error
                 (mkWowMySQLError (extractMessage status (unmarshalMap body))
                                  status (unmarshalMap body))).
  { intros w <-. unfold parseError.
    destruct (Z.eqb status 401 || Z.eqb status 403); [reflexivity|].
    destruct (Z.eqb status 404); [reflexivity|].
    destruct (Z.eqb status 429); reflexivity. }
  split; [|split; [|split; [|split]]].
  - intros Hpos. rewrite (Hp _ eq_refl). unfold WowMySQLError_Error. simpl.
    apply Z.ltb_lt in Hpos. now rewrite Hpos.
  - intros Hneg. rewrite (Hp _ eq_refl). unfold WowMySQLError_Error. simpl.
    apply Z.ltb_ge in Hneg. now rewrite Hneg.
  - reflexivity.
  - intros msg size available Hlt. simpl.
    unfold StorageLimitExceededError_Error. simpl.
    destruct (Z.ltb_spec 0 available) as [Ha|Ha].
    + assert (Hs : Z.ltb 0 size = true) by (apply Z.ltb_lt; lia).
      now rewrite Hs.
    + now rewrite andb_false_r.
  - intros cause. split; reflexivity.
Qed.

(** X14. The path of [ListFiles]: no query string at all without a prefix
    and with a limit of zero or less; otherwise [?prefix=...], [?limit=N]
    or both joined by [&].  The prefix is written as given, without
    escaping, and the request is a [GET] on that path. *)
Theorem ListFiles_path
    (rt : Runtime) (dec : FileDecoders) (s : StorageClient)
    (prefix : string) (limit : Z) (log : list HttpRequest) :
  (limit <= 0 -> listPath "" limit = "/api/v1/storage/list")
  /\ (limit <= 0 -> prefix <> "" ->
      listPath prefix limit = "/api/v1/storage/list?prefix=" +:+ prefix)
  /\ (0 < limit ->
      listPath "" limit = "/api/v1/storage/list?limit=" +:+ itoa limit)
  /\ (0 < limit -> prefix <> "" ->
      listPath prefix limit
      = "/api/v1/storage/list?prefix=" +:+ prefix +:+ "&limit=" +:+ itoa limit)
  /\ ((ListFiles rt dec s prefix limit log).1 = log
      \/ (ListFiles rt dec s prefix limit log).1
         = log ++ [mkRequest "GET" (sProjectURL s +:+ listPath prefix limit)
                     [("Content-Type", "application/json");
                      ("Accept", "application/json");
                      ("Authorization", "Bearer " +:+ sApiKey s)] NoBody]).
Proof.
  split; [|split; [|split; [|split]]].
  - intros Hl. unfold listPath. apply Z.ltb_ge in Hl. now rewrite Hl.
  - intros Hl Hp. unfold listPath. apply Z.ltb_ge in Hl.
    apply String.eqb_neq in Hp. rewrite Hl, Hp. reflexivity.
  - intros Hl. unfold listPath. apply Z.ltb_lt in Hl. now rewrite Hl.
  - intros Hl Hp. unfold listPath. apply Z.ltb_lt in Hl.
    apply String.eqb_neq in Hp. rewrite Hl, Hp. simpl.
    rewrite !append_assoc. reflexivity.
  - unfold ListFiles.
    pose proof (Storage_doRequest_log rt s "GET" (listPath prefix limit) None log)
      as H. cbv zeta in H.
    destruct (Storage.doRequest rt s "GET" _ None log) as [l [resp|e]];
      simpl in H; [destruct (resp ≫= _)|]; exact H.
Qed.

(** ** The auth client *)

Lemma authDoRequest_log rt c method path body headers log :
  (authDoRequest rt c method path body headers log).1 = log
  \/ (authDoRequest rt c method path body headers log).1
     = log ++ [mkRequest method (baseURL c +:+ path) (authHeaders c headers)
                 match body with Some j => JsonBody j | None => NoBody end].
Proof.
  unfold authDoRequest.
  destruct (urlError rt _); [left; reflexivity|]. right.
  destruct (backend rt log _) as [x|st x|st b]; try reflexivity.
  destruct (failedStatus st); reflexivity.
Qed.

(** X15. A successful [SignIn], [SignUp] or [ExchangeOAuthCallback] stores
    the two tokens of the answer in the client, and a failed one leaves the
    client as it was.  [GetSession] then gives these tokens back, with the
    token type always "bearer" and no expiry, whatever the answer said;
    [SignIn] never returns a user.  Base URL and public key never change. *)
Theorem sign_in_persists_session_on_success
    (rt : Runtime) (dec : AuthDecoders) (c : AuthClient)
    (email password : string) (log : list HttpRequest) :
  (forall options provider code redirectURI out,
     out = SignIn rt dec c email password log
     \/ out = SignUp rt dec c email password options log
     \/ out = ExchangeOAuthCallback rt dec c provider code redirectURI log ->
     match out.2 with
     | Ok res =>
         accessToken out.1.1 = AccessToken (ResultSession res)
         /\ refreshToken out.1.1 = RefreshToken (ResultSession res)
         /\ GetSession out.1.1
            = mkAuthSession (AccessToken (ResultSession res))
                            (RefreshToken (ResultSession res)) "bearer" 0
     | Err _ => out.1.1 = c
     end
     /\ baseURL out.1.1 = baseURL c /\ publicKey out.1.1 = publicKey c)
  /\ (forall res, (SignIn rt dec c email password log).2 = Ok res ->
                  ResultUser res = None).
Proof.
  split.
  - intros options provider code redirectURI out [-> | [-> | ->]].
    + unfold SignIn.
      destruct (authDoRequest rt c "POST" "/login" _ [] log) as [l [b|e]];
        [|repeat split].
      destruct (b ≫= decodeLoginResponse dec); repeat split.
    + unfold SignUp.
      destruct (authDoRequest rt c "POST" "/signup" _ [] log) as [l [b|e]];
        [|repeat split].
      destruct (b ≫= decodeAuthResponse dec); repeat split.
    + unfold ExchangeOAuthCallback.
      destruct (authDoRequest rt c "POST" _ _ [] log) as [l [b|e]];
        [|repeat split].
      destruct (b ≫= decodeAuthResponse dec); repeat split.
  - intros res. unfold SignIn.
    destruct (authDoRequest rt c "POST" "/login" _ [] log) as [l [b|e]];
      [|discriminate].
    destruct (b ≫= decodeLoginResponse dec); [|discriminate].
    intros [= <-]. reflexivity.
Qed.

(** X16. [GetUser] sends the first override token when one is given and is
    not empty, and the stored access token otherwise.  Without any token it
    fails locally, with a [WowMySQLError] of status 0, and makes no request;
    with one it makes at most one [GET /me] whose [Authorization] header is
    "Bearer " followed by that token.  It never changes the session. *)
Theorem GetUser_token_choice
    (rt : Runtime) (dec : AuthDecoders) (c : AuthClient)
    (tokenOverride : list string) (log : list HttpRequest) :
  (forall t rest, t <> "" -> userToken c (t :: rest) = t)
  /\ (forall rest, userToken c ("" :: rest) = accessToken c)
  /\ userToken c [] = accessToken c
  /\ (userToken c tokenOverride = "" ->
      GetUser rt dec c tokenOverride log
      = (log, Err (ErrWowMySQL
                     (mkWowMySQLError
                        "access token is required to fetch user profile" 0 ∅))))
  /\ (userToken c tokenOverride <> "" ->
      ((GetUser rt dec c tokenOverride log).1 = log
       \/ exists req,
           (GetUser rt dec c tokenOverride log).1 = log ++ [req]
           /\ reqMethod req = "GET"
           /\ reqURL req = baseURL c +:+ "/me"
           /\ reqBody req = NoBody
           /\ getHeader "Authorization" (reqHeaders req)
              = Some ("Bearer " +:+ userToken c tokenOverride)
           /\ getHeader "X-Wow-Public-Key" (reqHeaders req)
              = if String.eqb (publicKey c) "" then None
                else Some (publicKey c))).
Proof.
  split; [|split; [|split; [|split]]].
  - intros t rest Ht. unfold userToken. apply String.eqb_neq in Ht.
    now rewrite Ht.
  - reflexivity.
  - reflexivity.
  - intros Ht. unfold GetUser. rewrite Ht. reflexivity.
  - intros Ht. unfold GetUser. apply String.eqb_neq in Ht. rewrite Ht.
    pose proof (authDoRequest_log rt c "GET" "/me" None
                  [("Authorization", "Bearer " +:+ userToken c tokenOverride)] log)
      as H.
    destruct (authDoRequest rt c "GET" "/me" None _ log) as [l [b|e]];
      simpl in H.
    + assert (Hl : (match b ≫= decodeAuthUser dec with
                    | Some user => (l, Ok user)
                    | None => (l, Err (ErrWrapped "failed to parse user response" ""))
                    end).1 = l) by (destruct (b ≫= _); reflexivity).
      rewrite Hl. destruct H as [H|H]; [left; exact H|right].
      eexists. split; [exact H|]. repeat split.
      * unfold authHeaders. destruct (String.eqb (publicKey c) ""); reflexivity.
      * unfold authHeaders. destruct (String.eqb (publicKey c) ""); reflexivity.
    + simpl. destruct H as [H|H]; [left; exact H|right].
      eexists. split; [exact H|]. repeat split.
      * unfold authHeaders. destruct (String.eqb (publicKey c) ""); reflexivity.
      * unfold authHeaders. destruct (String.eqb (publicKey c) ""); reflexivity.
Qed.

(** X17. Sessions compose with [GetUser]: after [ClearSession] a [GetUser]
    without override fails locally and sends nothing; after [SetSession]
    with a non-empty access token it sends that token; and after a
    successful [SignIn] it sends the access token of the answer, or fails
    locally when that token is empty.  A client fresh from [NewAuthClient]
    has no session, so its [GetUser] fails locally too. *)
Theorem session_then_GetUser
    (rt : Runtime) (dec : AuthDecoders) (c : AuthClient)
    (log : list HttpRequest) :
  GetUser rt dec (ClearSession c) [] log
  = (log, Err (ErrWowMySQL
                 (mkWowMySQLError
                    "access token is required to fetch user profile" 0 ∅)))
  /\ (forall access refresh,
        userToken (SetSession c access refresh) [] = access)
  /\ (forall email password log0 res,
        (SignIn rt dec c email password log0).2 = Ok res ->
        userToken (SignIn rt dec c email password log0).1.1 []
        = AccessToken (ResultSession res)
        /\ (AccessToken (ResultSession res) = "" ->
            (GetUser rt dec (SignIn rt dec c email password log0).1.1 [] log).1
            = log))
  /\ GetSession (ClearSession c) = mkAuthSession "" "" "bearer" 0
  /\ (forall access refresh,
        GetSession (SetSession c access refresh)
        = mkAuthSession access refresh "bearer" 0)
  /\ (forall config key,
        GetUser rt dec (NewAuthClient config key) [] log
        = (log, Err (ErrWowMySQL
                       (mkWowMySQLError
                          "access token is required to fetch user profile" 0 ∅)))).
Proof.
  split; [reflexivity|]. split; [reflexivity|].
  split; [|split; [reflexivity|split; reflexivity]].
  intros email password log0 res. unfold SignIn.
  destruct (authDoRequest rt c "POST" "/login" _ [] log0) as [l [b|e]];
    [|discriminate].
  destruct (b ≫= decodeLoginResponse dec); [|discriminate].
  intros [= <-]. simpl. split; [reflexivity|].
  intros Hempty. unfold GetUser, userToken. simpl. rewrite Hempty. reflexivity.
Qed.

(** X18. The body of [SignUp]: with no option exactly [email] and
    [password]; [WithFullName] adds [full_name] for every name, the empty one
    included; [WithUserMetadata] adds [user_metadata] only for a map with
    entries; of two [WithFullName] options the later one counts.  The
    request is a [POST] on [/signup] without an [Authorization] header. *)
Theorem SignUp_payload
    (rt : Runtime) (dec : AuthDecoders) (c : AuthClient)
    (email password : string) (log : list HttpRequest) :
  (forall options,
     (SignUp rt dec c email password options log).1.2 = log
     \/ (SignUp rt dec c email password options log).1.2
        = log ++ [mkRequest "POST" (baseURL c +:+ "/signup") (authHeaders c [])
                    (JsonBody (marshalSignUp
                                 (List.fold_left (fun p opt => opt p) options
                                    (mkSignUpRequest email password None None))))])
  /\ getHeader "Authorization" (authHeaders c []) = None
  /\ marshalSignUp (mkSignUpRequest email password None None)
     = JObject [("email", JString email); ("password", JString password)]
  /\ (forall name,
        marshalSignUp (WithFullName name (mkSignUpRequest email password None None))
        = JObject [("email", JString email); ("password", JString password);
                   ("full_name", JString name)])
  /\ (forall n1 n2 r, WithFullName n2 (WithFullName n1 r) = WithFullName n2 r)
  /\ (forall metadata,
        hasKey "user_metadata"
          (marshalSignUp (WithUserMetadata metadata
                            (mkSignUpRequest email password None None)))
        = true
        <-> exists m, metadata = Some m /\ m <> ∅).
Proof.
  split; [|split; [|split; [|split; [|split]]]].
  - intros options. unfold SignUp.
    pose proof (authDoRequest_log rt c "POST" "/signup"
                  (Some (marshalSignUp
                           (List.fold_left (fun p opt => opt p) options
                              (mkSignUpRequest email password None None))))
                  [] log) as H.
    destruct (authDoRequest rt c "POST" "/signup" _ [] log) as [l [b|e]];
      simpl in H; [destruct (b ≫= decodeAuthResponse dec)|]; exact H.
  - unfold authHeaders. destruct (String.eqb (publicKey c) ""); reflexivity.
  - reflexivity.
  - reflexivity.
  - reflexivity.
  - intros metadata. unfold marshalSignUp, WithUserMetadata. simpl.
    destruct metadata as [m|].
    + destruct (decide (m = ∅)) as [->|Hne].
      * rewrite bool_decide_eq_true_2 by reflexivity. simpl.
        split; [discriminate|intros (m' & [= <-] & Hm); congruence].
      * rewrite bool_decide_eq_false_2 by exact Hne. simpl.
        split; [intros _; eauto|reflexivity].
    + simpl. split; [discriminate|intros (m' & Hm & _); discriminate].
Qed.

(** ** The storage theorems on sample backends *)

(** X8 on a backend that answers every request with 404: the error of
    [GetQuota] is a [StorageError], not a [NotFoundError]. *)
Lemma storage_errors_are_storage_kinds_witness :
  kindOf (parseStorageError 404 (Some (JObject [("error", JString "no such file")])))
  <> NotFoundKind.
Proof.
  exact (proj1 (proj2
    (storage_errors_are_storage_kinds
       (sampleRuntime (always 404 (JObject [("error", JString "no such file")]))
          [] sampleQuotaFields)
       sampleFileDecoders sampleStorage []
       (parseStorageError 404 (Some (JObject [("error", JString "no such file")])))
       (or_introl eq_refl)))).
Defined.

(** X10 on a transport that refuses every connection, the quota check at
    its default. *)
Lemma Upload_stops_when_quota_fetch_fails_witness :
  Upload (sampleRuntime refused [] sampleQuotaFields)
         sampleStorage fiveBytes "uploads/a.txt" "text/plain" None []
  = ([quotaRequest sampleStorage],
     Err (ErrStorage (mkStorageError "" 0 ∅ (Some "connection refused")))).
Proof.
  exact (proj1
    (Upload_stops_when_quota_fetch_fails
       (sampleRuntime refused [] sampleQuotaFields)
       sampleStorage fiveBytes "uploads/a.txt" "text/plain" None []
       (ErrStorage (mkStorageError "" 0 ∅ (Some "connection refused")))
       eq_refl eq_refl)).
Defined.

(** X11 on a backend that serves a quota of 7.5 GB and accepts the upload. *)
Lemma Upload_succeeds_after_guard_witness :
  Upload (sampleRuntime (always 200 (JObject [])) [] sampleQuotaFields)
         sampleStorage fiveBytes "uploads/a.txt" "text/plain" None []
  = ([quotaRequest sampleStorage]
     ++ [uploadRequest (sampleRuntime (always 200 (JObject [])) [] sampleQuotaFields)
           sampleStorage fiveBytes "uploads/a.txt" "text/plain"],
     Ok (mkFileUploadResult "uploads/a.txt" 5 "https://cdn/a.txt" true)).
Proof.
  refine (proj1 (Upload_succeeds_after_guard
                  (sampleRuntime (always 200 (JObject [])) [] sampleQuotaFields)
                  sampleStorage fiveBytes "uploads/a.txt" "text/plain" None
                  [] [quotaRequest sampleStorage]
                  200 (JObject [])
                  (mkFileUploadResult "uploads/a.txt" 5 "https://cdn/a.txt" true)
                  (or_intror (conj eq_refl
                     (ex_intro _
                        (mkStorageQuota 10%float 2.5%float 0%float 7.5%float
                           25%float false false "pro"
                           10737418240 2684354560 8053063680)
                        (conj eq_refl _))))
                  eq_refl eq_refl eq_refl eq_refl)).
  simpl. lia.
Defined.

(** ** The auth base URL of a slug and of a host *)

Lemma rev_cons a s : String.rev (String a s) = String.rev s +:+ String a "".
Proof. change (String a s) with (String a "" +:+ s). apply rev_append. Qed.

Lemma rev_involutive s : String.rev (String.rev s) = s.
Proof.
  induction s as [|a s IH]; [reflexivity|].
  rewrite rev_cons, rev_append, IH. reflexivity.
Qed.

Lemma prefix_through_dot p :
  forall a b,
    ~ In "."%char (list_ascii_of_string p) ->
    String.prefix p (a +:+ String "." b) = true -> String.prefix p a = true.
Proof.
  induction p as [|c p IH]; intros a b Hnot H; [now destruct a|].
  destruct a as [|c' a].
  - change ("" +:+ String "." b) with (String "." b) in H. simpl in H.
    destruct (ascii_dec c "."); [|discriminate].
    subst. exfalso. apply Hnot. left. reflexivity.
  - rewrite append_cons in H. simpl in H |- *.
    destruct (ascii_dec c c'); [|discriminate].
    apply (IH a b); [|exact H].
    intros Hin. apply Hnot. right. exact Hin.
Qed.

Lemma HasSuffix_after_dot x d s :
  ~ In "."%char (list_ascii_of_string (String.rev s)) ->
  HasSuffix d s = false -> HasSuffix (x +:+ "." +:+ d) s = false.
Proof.
  intros Hnot Hd. unfold HasSuffix in *.
  rewrite !rev_append. change (String.rev ".") with ".".
  rewrite append_assoc. change ("." +:+ String.rev x) with (String "." (String.rev x)).
  destruct (String.prefix (String.rev s)
              (String.rev d +:+ String "." (String.rev x))) eqn:E; [|reflexivity].
  apply prefix_through_dot in E; [congruence|exact Hnot].
Qed.

Lemma prefix_cons a p b s :
  String.prefix (String a p) (String b s)
  = if ascii_dec a b then String.prefix p s else false.
Proof. reflexivity. Qed.

Lemma prefix_nil s : String.prefix "" s = true.
Proof. now destruct s. Qed.

Lemma prefix_of_empty a p : String.prefix (String a p) "" = false.
Proof. reflexivity. Qed.

Lemma append_nil_l (s : string) : "" +:+ s = s.
Proof. reflexivity. Qed.

Ltac decide_chars :=
  repeat match goal with
         | |- context [ascii_dec ?x ?y] => destruct (ascii_dec x y) as [?|?]
         end;
  intros; subst; try congruence.

Lemma HasSuffix_after_scheme secure host s :
  s ∈ ["/"; "/api"] ->
  host <> "" -> host <> "api" -> HasSuffix host s = false ->
  HasSuffix (protocolOf secure +:+ "://" +:+ host) s = false.
Proof.
  intros Hs Hne Hapi Hh. unfold HasSuffix in *.
  rewrite !rev_append.
  assert (Hr1 : String.rev host <> "").
  { intros E. apply Hne. rewrite <- (rev_involutive host), E. reflexivity. }
  assert (Hr2 : String.rev host <> "ipa").
  { intros E. apply Hapi. rewrite <- (rev_involutive host), E. reflexivity. }
  clear Hne Hapi.
  revert Hr1 Hr2 Hh. generalize (String.rev host) as r. intros r Hr1 Hr2 Hh.
  change (String.rev "://") with "//:".
  assert (Hp : exists c q, String.rev (protocolOf secure) = String c q)
    by (destruct secure; do 2 eexists; vm_compute; reflexivity).
  destruct Hp as (c0 & q & ->).
  repeat (apply elem_of_cons in Hs as [->|Hs]); [| |now apply elem_of_nil in Hs].
  - change (String.rev "/") with "/" in *.
    destruct r as [|a r]; [congruence|].
    revert Hh.
    repeat (progress (rewrite ?append_cons, ?append_nil_l, ?prefix_cons,
                        ?prefix_nil, ?prefix_of_empty)).
    decide_chars.
  - change (String.rev "/api") with "ipa/" in *.
    destruct r as [|a [|b [|c [|d r]]]]; [congruence| | | |]; revert Hh;
      repeat (progress (rewrite ?append_cons, ?append_nil_l, ?prefix_cons,
                          ?prefix_nil, ?prefix_of_empty));
      decide_chars.
Qed.

(** X19. A project given as a bare slug: when the trimmed text is no full
    URL and does not already name the base domain (the given one, or
    "wowmysql.com" when none is given), [buildAuthBaseURL] puts it in front
    of the domain, on [https] when [secure] is set and on [http] when it is
    not, and appends [/api/auth].  The domain must not end in a slash or in
    [/api], which the function would cut off. *)
Theorem buildAuthBaseURL_slug
    (projectURL domain : string) (secure : bool) :
  let d := if String.eqb domain "" then "wowmysql.com" else domain in
  let slug := TrimSpace projectURL in
  HasPrefix slug "http://" || HasPrefix slug "https://" = false ->
  Contains slug ("." +:+ d) || HasSuffix slug d = false ->
  HasSuffix d "/" = false -> HasSuffix d "/api" = false ->
  buildAuthBaseURL projectURL domain secure
  = protocolOf secure +:+ "://" +:+ slug +:+ "." +:+ d +:+ "/api/auth".
Proof.
  intros d slug Hpre Hcont Hs Ha.
  unfold buildAuthBaseURL. fold d. fold slug. cbv zeta.
  rewrite Hpre, Hcont.
  assert (Hurl : protocolOf secure +:+ "://" +:+ slug +:+ "." +:+ d
                 = (protocolOf secure +:+ "://" +:+ slug) +:+ "." +:+ d)
    by (rewrite !append_assoc; reflexivity).
  assert (H1 : HasSuffix (protocolOf secure +:+ "://" +:+ slug +:+ "." +:+ d) "/"
               = false).
  { rewrite Hurl. apply HasSuffix_after_dot; [|exact Hs].
    vm_compute. intros [H|[]]. discriminate. }
  assert (H2 : HasSuffix (protocolOf secure +:+ "://" +:+ slug +:+ "." +:+ d) "/api"
               = false).
  { rewrite Hurl. apply HasSuffix_after_dot; [|exact Ha].
    vm_compute. intros [H|[H|[H|[H|[]]]]]; discriminate. }
  rewrite (TrimSuffix_absent _ _ H1), H2.
  rewrite !append_assoc. reflexivity.
Qed.

(** X19 on the slug " shop " with the base domain "example.org". *)
Lemma buildAuthBaseURL_slug_witness :
  buildAuthBaseURL " shop " "example.org" false
  = "http://shop.example.org/api/auth".
Proof.
  exact (buildAuthBaseURL_slug " shop " "example.org" false
           eq_refl eq_refl eq_refl eq_refl).
Defined.

(** X20. A project given as a host that already names the base domain (it
    contains "." followed by the domain, or ends with the domain): the
    domain is not appended again.  The host, followed by nothing, "/",
    "/api" or "/api/", is put behind the scheme chosen by [secure] and
    [/api/auth] is appended once. *)
Theorem buildAuthBaseURL_host
    (projectURL host tail domain : string) (secure : bool) :
  let d := if String.eqb domain "" then "wowmysql.com" else domain in
  TrimSpace projectURL = host +:+ tail ->
  tail ∈ [""; "/"; "/api"; "/api/"] ->
  HasPrefix (host +:+ tail) "http://" || HasPrefix (host +:+ tail) "https://"
  = false ->
  Contains (host +:+ tail) ("." +:+ d) || HasSuffix (host +:+ tail) d = true ->
  host <> "" -> host <> "api" ->
  HasSuffix host "/" = false -> HasSuffix host "/api" = false ->
  buildAuthBaseURL projectURL domain secure
  = protocolOf secure +:+ "://" +:+ host +:+ "/api/auth".
Proof.
  intros d Htrim Hin Hpre Hcont Hne Hapi Hs Ha.
  unfold buildAuthBaseURL. fold d. cbv zeta.
  rewrite Htrim, Hpre, Hcont.
  assert (Hurl : protocolOf secure +:+ "://" +:+ host +:+ tail
                 = (protocolOf secure +:+ "://" +:+ host) +:+ tail)
    by (rewrite !append_assoc; reflexivity).
  rewrite Hurl.
  pose proof (normalize_tail (protocolOf secure +:+ "://" +:+ host) tail Hin
                (HasSuffix_after_scheme secure host "/" ltac:(set_solver) Hne Hapi Hs)
                (HasSuffix_after_scheme secure host "/api" ltac:(set_solver) Hne Hapi Ha))
    as Hn.
  cbv zeta in Hn. rewrite Hn.
  rewrite !append_assoc. reflexivity.
Qed.

(** X20 on the host "shop.wowmysql.com/api/" with the default domain. *)
Lemma buildAuthBaseURL_host_witness :
  buildAuthBaseURL "shop.wowmysql.com/api/" "" true
  = "https://shop.wowmysql.com/api/auth".
Proof.
  refine (buildAuthBaseURL_host "shop.wowmysql.com/api/" "shop.wowmysql.com"
            "/api/" "" true eq_refl _ eq_refl eq_refl _ _ eq_refl eq_refl).
  - set_solver.
  - discriminate.
  - discriminate.
Defined.
